(** * AI Virtual Attendee: the session orchestrator and its collaborators

    A shallow embedding of [main.py], [audio_stream.py], [gemini_session.py]
    and [logger.py].

    Conventions of the embedding.
    - Every Python object is a record of its attributes; a method is a
      computation in the monad [M], which threads the object and the
      external [World] and either returns a value or raises; a raise keeps
      the mutations made before it, as in Python.
    - The collaborators outside the repository (PyAudio, the Live API
      session, the screen grabber, the wall clock, scipy's resampler) are
      given by an environment [Env]: the outcome of the [n]-th external
      interaction is a function of [n].  Every theorem quantifies over the
      environment, so it holds whatever the collaborators do.
    - [exn] stands for instances of Python's [Exception]; an [except
      Exception] clause catches all of them.
    - A Python [str] is the string of its UTF-8 bytes.
    - Python's true division on integers is modelled by the exact rational
      quotient in [Q]; [int(a / b)] by truncating integer division.
    - Of the console output only the error reports of the handlers are
      kept (as [EvPrint] events); banners and progress lines are left out. *)

From Stdlib Require Import ZArith QArith Qround List String Ascii Bool Lia.
From Stdlib Require Import DecimalString Sorted.
Import ListNotations.

#[local] Open Scope string_scope.
#[local] Open Scope Z_scope.

(** ** Python runtime: exceptions, results, the external world *)

Module Py.

Inductive exn_class : Type :=
| OSError
| ValueError
| AttributeError
| TypeError
| ZeroDivisionError
| OtherException.

Record exn : Type := mkExn { exn_cls : exn_class; exn_msg : string }.

Definition is_OSError (e : exn) : bool :=
  match exn_cls e with OSError => true | _ => false end.

Inductive result (A : Type) : Type :=
| Ok (a : A)
| Raise (e : exn).
Arguments Ok {A} a.
Arguments Raise {A} e.

Definition bytes := list Byte.byte.

(** What the program does to its collaborators, in order. *)
Inductive Event : Type :=
| EvCaptureFrame
| EvDeviceInfo (device : Z)
| EvOpen (rate : Z)
| EvStreamRead (frames : Z)
| EvStopStream
| EvCloseStream
| EvTerminate
| EvAenter
| EvAexit
| EvSendText (mime : string) (data : string)
| EvSendBytes (mime : string) (data : bytes)
| EvReceive
| EvSleep (seconds : Q)
| EvPrint (line : string).

(** The external world: how many interactions happened, and which. *)
Record World : Type := mkWorld { tick : nat; trace : list Event }.

Definition world0 : World := mkWorld 0 [].

(** A computation over an object of type [St]. *)
Definition M (St A : Type) : Type := St -> World -> result A * St * World.

Definition ret {St A} (a : A) : M St A := fun s w => (Ok a, s, w).

Definition raise {St A} (e : exn) : M St A := fun s w => (Raise e, s, w).

Definition bind {St A B} (m : M St A) (f : A -> M St B) : M St B :=
  fun s w =>
    match m s w with
    | (Ok a, s', w') => f a s' w'
    | (Raise e, s', w') => (Raise e, s', w')
    end.

(** [try: body except Exception as e: handler e] *)
Definition try_except {St A} (body : M St A) (handler : exn -> M St A) : M St A :=
  fun s w =>
    match body s w with
    | (Ok a, s', w') => (Ok a, s', w')
    | (Raise e, s', w') => handler e s' w'
    end.

Definition gets {St A} (f : St -> A) : M St A := fun s w => (Ok (f s), s, w).

Definition modify {St} (f : St -> St) : M St unit := fun s w => (Ok tt, f s, w).

(** Run a method of an attribute [T] of the object [St]. *)
Definition zoom {St T A} (get : St -> T) (set : T -> St -> St) (m : M T A) : M St A :=
  fun s w =>
    match m (get s) w with
    | (r, t', w') => (r, set t' s, w')
    end.

(** One interaction with a collaborator: its outcome is the environment's
    answer at the current tick. *)
Definition extern {St A} (ev : Event) (outcome : nat -> result A) : M St A :=
  fun s w => (outcome (tick w), s, mkWorld (S (tick w)) (trace w ++ [ev])).

(** An effect on the world that cannot fail (sleeping, printing). *)
Definition emit {St} (ev : Event) : M St unit :=
  fun s w => (Ok tt, s, mkWorld (tick w) (trace w ++ [ev])).

Definition when {St} (b : bool) (m : M St unit) : M St unit :=
  if b then m else ret tt.

Definition result_of {St A} (x : result A * St * World) : result A := fst (fst x).
Definition state_of {St A} (x : result A * St * World) : St := snd (fst x).
Definition world_of {St A} (x : result A * St * World) : World := snd x.

Definition raises {A} (r : result A) : Prop := exists e, r = Raise e.

(** How a [while] or [async for] loop run with bounded fuel ended: by
    leaving the loop, or with iterations still to do. *)
Inductive loop_status : Type := Finished | OutOfFuel.

(** Truthiness of [str | None] and of [bytes]. *)
Definition truthy (t : option string) : bool :=
  match t with
  | Some s => negb (String.eqb s "")
  | None => false
  end.

Definition nonempty (b : bytes) : bool :=
  match b with [] => false | _ => true end.

(** Python's [round(x)]: the nearest integer, ties to even. *)
Definition round_half_even (q : Q) : Z :=
  let n := Qnum q in
  let d := Zpos (Qden q) in
  let fl := n / d in
  let r := n mod d in
  if 2 * r <? d then fl
  else if d <? 2 * r then fl + 1
  else if Z.even fl then fl else fl + 1.

Definition str_of_int (z : Z) : string := NilZero.string_of_int (Z.to_int z).

(** [str(e)] *)
Definition str_of_exn (e : exn) : string := exn_msg e.

End Py.

Import Py.

Declare Scope py_scope.
Delimit Scope py_scope with py.
Notation "x <- m ;; k" := (bind m (fun x => k))
  (at level 61, m at next level, right associativity) : py_scope.
Notation "m ;; k" := (bind m (fun _ => k))
  (at level 61, right associativity) : py_scope.
#[local] Open Scope py_scope.

(** ** The wire contract of the remote session and the environment *)

Module Wire.

(** An outbound event of the remote session: each attribute is optional
    ([None] covers both a missing attribute and a [None] value). *)
Record Part : Type := mkPart { part_text : option string }.

Record Content : Type := mkContent { parts : list Part }.

Record Transcription : Type := mkTranscription { transcription_text : option string }.

Record ServerContent : Type := mkServerContent {
  model_turn : option Content;
  output_transcription : option Transcription
}.

Record Response : Type := mkResponse {
  text : option string;
  server_content : option ServerContent
}.

End Wire.

(** The collaborators.  Each field answers the interaction made at a tick. *)
Record Env : Type := mkEnv {
  (* datetime.now().strftime("%H:%M:%S") *)
  clock : nat -> string;
  (* ScreenCapture.capture_frame() *)
  capture_frame : nat -> result string;
  (* int(pa.get_device_info_by_index(i)["defaultSampleRate"]) *)
  device_rate : nat -> result Z;
  (* pa.open(..., rate=rate, ...) *)
  pa_open : Z -> nat -> result unit;
  (* stream.read(CHUNK, exception_on_overflow=False) *)
  stream_read : nat -> result bytes;
  stop_stream : nat -> result unit;
  stream_close : nat -> result unit;
  pa_terminate : nat -> result unit;
  (* scipy.signal.resample(samples, num): a pure function of its input *)
  resample : list Z -> Z -> result (list Q);
  (* _session_ctx.__aenter__() and __aexit__(None, None, None) *)
  aenter : nat -> result unit;
  aexit : nat -> result unit;
  (* session.send_realtime_input(media=...) *)
  send_realtime_input : nat -> result unit;
  (* the next item of session.receive(): an event, or the end of the stream *)
  receive : nat -> result (option Wire.Response);
  (* whether another task requested the stop while this one was suspended *)
  stop_requested : nat -> bool
}.

(** ** logger.py *)

Module FeedbackLogger.

Record t : Type := mk {
  file : string;          (* what has been written (and flushed) so far *)
  file_closed : bool;
  response_count : Z
}.

Definition newline : string := String (ascii_of_nat 10) EmptyString.

(** [f"[{timestamp}] {message}\n"] *)
Definition log_line (timestamp message : string) : string :=
  "[" ++ timestamp ++ "] " ++ message ++ newline.

Definition write (s : string) (l : t) : t :=
  mk (file l ++ s) (file_closed l) (response_count l).

(** Python's [str.strip()].  A text is held as its UTF-8 bytes (the
    encoding the log file is opened with), and Python counts as
    whitespace the code points 9-13, 28-32, U+0085, U+00A0, U+1680,
    U+2000-U+200A, U+2028, U+2029, U+202F, U+205F and U+3000.  [is_space]
    knows those of one byte, [is_space2] and [is_space3] the two- and
    three-byte encodings of the others. *)
Definition is_space (c : ascii) : bool :=
  let n := nat_of_ascii c in
  ((9 <=? n) && (n <=? 13) || (28 <=? n) && (n <=? 32))%nat.

Definition is_space2 (c0 c1 : ascii) : bool :=
  let b0 := N_of_ascii c0 in
  let b1 := N_of_ascii c1 in
  ((b0 =? 194) && ((b1 =? 133) || (b1 =? 160)))%N.

Definition is_space3 (c0 c1 c2 : ascii) : bool :=
  let b0 := N_of_ascii c0 in
  let b1 := N_of_ascii c1 in
  let b2 := N_of_ascii c2 in
  ((b0 =? 225) && (b1 =? 154) && (b2 =? 128)
   || (b0 =? 226) && (b1 =? 128)
      && ((128 <=? b2) && (b2 <=? 138) || (b2 =? 168) || (b2 =? 169) || (b2 =? 175))
   || (b0 =? 226) && (b1 =? 129) && (b2 =? 159)
   || (b0 =? 227) && (b1 =? 128) && (b2 =? 128))%N.

(** Leading whitespace dropped, one code point at a time. *)
Fixpoint lstrip (cs : list ascii) : list ascii :=
  match cs with
  | c :: cs' =>
      if is_space c then lstrip cs'
      else
        match cs' with
        | c1 :: cs1 =>
            if is_space2 c c1 then lstrip cs1
            else
              match cs1 with
              | c2 :: cs2 => if is_space3 c c1 c2 then lstrip cs2 else cs
              | [] => cs
              end
        | [] => cs
        end
  | [] => []
  end.

(** The same on the reversed text, for the trailing whitespace: the bytes
    of a code point come last byte first. *)
Fixpoint lstrip_reversed (cs : list ascii) : list ascii :=
  match cs with
  | c :: cs' =>
      if is_space c then lstrip_reversed cs'
      else
        match cs' with
        | c1 :: cs1 =>
            if is_space2 c1 c then lstrip_reversed cs1
            else
              match cs1 with
              | c2 :: cs2 => if is_space3 c2 c1 c then lstrip_reversed cs2 else cs
              | [] => cs
              end
        | [] => cs
        end
  | [] => []
  end.

Definition strip (s : string) : string :=
  string_of_list_ascii
    (rev (lstrip_reversed (rev (lstrip (list_ascii_of_string s))))).

(** [s.split("\n")] *)
Fixpoint split_lines_aux (cur : list ascii) (cs : list ascii) : list string :=
  match cs with
  | [] => [string_of_list_ascii (rev cur)]
  | c :: cs' =>
      if Ascii.eqb c (ascii_of_nat 10)
      then string_of_list_ascii (rev cur) :: split_lines_aux [] cs'
      else split_lines_aux (c :: cur) cs'
  end.

Definition split_lines (s : string) : list string :=
  split_lines_aux [] (list_ascii_of_string s).

(** [f"{x:.1f}"] for a non-negative [x]: one decimal, ties to even.  (The
    rational is rounded, not its nearest double: the two can part only
    when [10 * x] is exactly half-way between two integers.) *)
Definition format_1f (q : Q) : string :=
  let tenths := round_half_even (q * 10) in
  (if (tenths <? 0)%Z then "-" else "") ++
  str_of_int (Z.abs tenths / 10) ++ "." ++ str_of_int (Z.abs tenths mod 10).

Section Methods.
Variable env : Env.

Definition now : M t string :=
  fun l w => (Ok (clock env (tick w)), l, mkWorld (S (tick w)) (trace w)).

(** [_log]: a timestamped line, written and flushed; writing to a closed
    file raises [ValueError]. *)
Definition _log (message : string) : M t unit :=
  timestamp <- now ;;
  closed <- gets file_closed ;;
  if closed : bool
  then raise (mkExn ValueError "I/O operation on closed file.")
  else modify (write (log_line timestamp message)).

(** [__init__]: the file is opened for writing and the first line logged. *)
Definition init (session_name : string) : M t unit :=
  modify (fun _ => mk "" false 0) ;;
  _log ("Session started: " ++ session_name).

Fixpoint log_lines (lines : list string) : M t unit :=
  match lines with
  | [] => ret tt
  | line :: rest =>
      when (negb (String.eqb (strip line) "")) (_log line) ;;
      log_lines rest
  end.

Definition log_response (text : string) : M t unit :=
  modify (fun l => mk (file l) (file_closed l) (response_count l + 1)) ;;
  log_lines (split_lines (strip text)).

Definition log_stats (frames_sent : Z) (audio_seconds : Q) : M t unit :=
  _log "--- SESSION STATS ---" ;;
  _log ("Frames sent: " ++ str_of_int frames_sent) ;;
  _log ("Audio duration: " ++ format_1f audio_seconds ++ "s") ;;
  rc <- gets response_count ;;
  _log ("Responses received: " ++ str_of_int rc).

Definition close : M t unit :=
  modify (fun l => mk (file l) true (response_count l)).

End Methods.

End FeedbackLogger.

(** ** audio_stream.py *)

Module AudioStream.

Definition TARGET_RATE : Z := 16000.
Definition CHANNELS : Z := 1.
Definition CHUNK : Z := 1024.
(* AudioStream.RATE = AudioStream.TARGET_RATE *)
Definition RATE : Z := TARGET_RATE.

Record t : Type := mk {
  device_index : option Z;
  stream : bool;              (* [false] is [None], [true] an opened handle *)
  running : bool;
  native_rate : option Z
}.

Definition set_stream (b : bool) (a : t) : t :=
  mk (device_index a) b (running a) (native_rate a).
Definition set_running (b : bool) (a : t) : t :=
  mk (device_index a) (stream a) b (native_rate a).
Definition set_native_rate (r : Z) (a : t) : t :=
  mk (device_index a) (stream a) (running a) (Some r).

(** [__init__] *)
Definition init (device : option Z) : t := mk device false false None.

(** 16-bit signed little-endian samples. *)
Definition byte_val (b : Byte.byte) : Z := Z.of_N (Byte.to_N b).

Definition byte_of (z : Z) : Byte.byte :=
  match Byte.of_N (Z.to_N (z mod 256)) with
  | Some b => b
  | None => Byte.x00
  end.

Definition int16_of (lo hi : Byte.byte) : Z :=
  let u := byte_val lo + 256 * byte_val hi in
  if u <? 32768 then u else u - 65536.

(** [np.frombuffer(data, dtype=np.int16)]: the buffer must hold whole
    samples. *)
Fixpoint frombuffer (data : bytes) : option (list Z) :=
  match data with
  | [] => Some []
  | [_] => None
  | lo :: hi :: rest =>
      match frombuffer rest with
      | Some xs => Some (int16_of lo hi :: xs)
      | None => None
      end
  end.

(** [.astype(np.int16)]: truncation towards zero, then the low 16 bits. *)
Definition truncate (q : Q) : Z := Z.quot (Qnum q) (Zpos (Qden q)).

Definition astype_int16 (q : Q) : Z := (truncate q + 32768) mod 65536 - 32768.

(** [.tobytes()] of an int16 array. *)
Fixpoint tobytes (xs : list Z) : bytes :=
  match xs with
  | [] => []
  | x :: rest => byte_of (x mod 65536) :: byte_of ((x mod 65536) / 256) :: tobytes rest
  end.

Section Methods.
Variable env : Env.

(** [pa.open(...)] at [rate], then [self.stream = ...]. *)
Definition open_stream (rate : Z) : M t unit :=
  extern (EvOpen rate) (pa_open env rate) ;;
  modify (set_stream true).

(** The loop over the common rates of the default device: the first rate
    that opens is kept; only [OSError] moves on to the next one. *)
Fixpoint try_rates (rates : list Z) : M t unit :=
  match rates with
  | [] => raise (mkExn OSError "Could not open audio stream at any sample rate")
  | rate :: rest =>
      try_except
        (modify (set_native_rate rate) ;;
         open_stream rate ;;
         modify (set_running true))
        (fun e => if is_OSError e then try_rates rest else raise e)
  end.

Definition start : M t unit :=
  d <- gets device_index ;;
  match d with
  | Some i =>
      r <- extern (EvDeviceInfo i) (device_rate env) ;;
      modify (set_native_rate r) ;;
      open_stream r ;;
      modify (set_running true)
  | None => try_rates [48000; 44100; 16000]
  end.

(** Lines 91-104 of [read_chunk]: the conversion to the target rate.
    [int(len * TARGET_RATE / native)] goes through a double; the integer
    quotient below is that value as long as [len * TARGET_RATE + native]
    stays under 2^53. *)
Definition num_samples (len native : Z) : Z := Z.quot (len * TARGET_RATE) native.

Definition differs_from_target (nr : option Z) : bool :=
  match nr with
  | Some native => negb (native =? TARGET_RATE)
  | None => true
  end.

Definition to_target_rate (data : bytes) : M t bytes :=
  nr <- gets native_rate ;;
  if differs_from_target nr then
    match frombuffer data with
    | None => raise (mkExn ValueError "buffer size must be a multiple of element size")
    | Some samples =>
        match nr with
        | None => raise (mkExn TypeError "unsupported operand type(s) for /")
        | Some native =>
            if native =? 0 then raise (mkExn ZeroDivisionError "division by zero")
            else
              let num := num_samples (Z.of_nat (List.length samples)) native in
              match resample env samples num with
              | Raise e => raise e
              | Ok resampled => ret (tobytes (map astype_int16 resampled))
              end
        end
    end
  else ret data.

Definition read_chunk : M t bytes :=
  st <- gets stream ;;
  rn <- gets running ;;
  if negb st || negb rn then ret []
  else
    data <- extern (EvStreamRead CHUNK) (stream_read env) ;;
    to_target_rate data.

Definition stop : M t unit :=
  modify (set_running false) ;;
  st <- gets stream ;;
  when st (extern EvStopStream (stop_stream env) ;;
           extern EvCloseStream (stream_close env)) ;;
  extern EvTerminate (pa_terminate env).

End Methods.

End AudioStream.

(** ** gemini_session.py *)

Module GeminiSession.
Import Wire.

Record t : Type := mk {
  session : bool;         (* [false] is [None] *)
  session_ctx : bool;     (* [false]: no [_session_ctx] attribute yet *)
  running : bool
}.

Definition set_session (b : bool) (g : t) : t := mk b (session_ctx g) (running g).
Definition set_session_ctx (b : bool) (g : t) : t := mk (session g) b (running g).
Definition set_running (b : bool) (g : t) : t := mk (session g) (session_ctx g) b.

(** [__init__] (the API key is taken as present). *)
Definition init : t := mk false false false.

(** The [for part in sc.model_turn.parts] loop with its [break]. *)
Fixpoint first_text (ps : list Part) : option string :=
  match ps with
  | [] => None
  | part :: rest =>
      if truthy (part_text part) then part_text part else first_text rest
  end.

(** The value of [text] when the body of the [async for] reaches
    [if text:]. *)
Definition extract_text (response : Response) : option string :=
  if truthy (text response) then text response
  else
    match server_content response with
    | Some sc =>
        let text1 :=
          match model_turn sc with
          | Some mt => first_text (parts mt)
          | None => None
          end in
        match output_transcription sc with
        | Some ot => transcription_text ot
        | None => text1
        end
    | None => None
    end.

Section Methods.
Variable env : Env.

Definition connect : M t unit :=
  modify (set_session_ctx true) ;;
  extern EvAenter (aenter env) ;;
  modify (set_session true) ;;
  modify (set_running true).

Definition send_frame (base64_jpeg : string) : M t unit :=
  s <- gets session ;;
  r <- gets running ;;
  when (s && r)
    (extern (EvSendText "image/jpeg" base64_jpeg) (send_realtime_input env)).

Definition send_audio (pcm_data : bytes) : M t unit :=
  s <- gets session ;;
  r <- gets running ;;
  when (s && r)
    (extern (EvSendBytes "audio/pcm" pcm_data) (send_realtime_input env)).

Definition disconnect : M t unit :=
  modify (set_running false) ;;
  ctx <- gets session_ctx ;;
  when ctx
    (try_except (extern EvAexit (aexit env)) (fun _ => ret tt)).

(** [listen_for_responses] belongs to an object that also holds the
    callback's target: [St] is that object, [get]/[set] reach the session
    inside it. *)
Section Listener.
Variable St : Type.
Variable get : St -> t.
Variable on_response : string -> M St unit.

Definition handle_response (response : Response) : M St unit :=
  match extract_text response with
  | Some s => when (truthy (Some s)) (on_response s)
  | None => ret tt
  end.

Fixpoint receive_loop (fuel : nat) : M St loop_status :=
  match fuel with
  | O => ret OutOfFuel
  | S n =>
      item <- extern EvReceive (receive env) ;;
      match item with
      | None => ret Finished
      | Some response => handle_response response ;; receive_loop n
      end
  end.

Definition listen_for_responses (fuel : nat) : M St loop_status :=
  try_except
    (s <- gets (fun o => session (get o)) ;;
     if s : bool then receive_loop fuel
     else raise (mkExn AttributeError "'NoneType' object has no attribute 'receive'"))
    (fun e =>
       r <- gets (fun o => running (get o)) ;;
       when r (emit (EvPrint ("Response listener error: " ++ str_of_exn e))) ;;
       ret Finished).

End Listener.

End Methods.

End GeminiSession.

(** ** main.py *)

Module WorkshopAttendee.

Definition FRAME_INTERVAL : Q := 4 # 10.

Record t : Type := mk {
  logger : FeedbackLogger.t;
  audio : AudioStream.t;
  gemini : GeminiSession.t;
  running : bool;
  frames_sent : Z;
  audio_chunks_sent : Z
}.

Definition set_logger (l : FeedbackLogger.t) (a : t) : t :=
  mk l (audio a) (gemini a) (running a) (frames_sent a) (audio_chunks_sent a).
Definition set_audio (x : AudioStream.t) (a : t) : t :=
  mk (logger a) x (gemini a) (running a) (frames_sent a) (audio_chunks_sent a).
Definition set_gemini (g : GeminiSession.t) (a : t) : t :=
  mk (logger a) (audio a) g (running a) (frames_sent a) (audio_chunks_sent a).
Definition set_running (b : bool) (a : t) : t :=
  mk (logger a) (audio a) (gemini a) b (frames_sent a) (audio_chunks_sent a).
Definition set_frames_sent (n : Z) (a : t) : t :=
  mk (logger a) (audio a) (gemini a) (running a) n (audio_chunks_sent a).
Definition set_audio_chunks_sent (n : Z) (a : t) : t :=
  mk (logger a) (audio a) (gemini a) (running a) (frames_sent a) n.

(** Line 104 of [shutdown]. *)
Definition audio_seconds_of (chunks : Z) : Q :=
  (inject_Z (chunks * AudioStream.CHUNK) / inject_Z (AudioStream.RATE * 2))%Q.

Section Methods.
Variable env : Env.

Definition on_logger {A} (m : M FeedbackLogger.t A) : M t A := zoom logger set_logger m.
Definition on_audio {A} (m : M AudioStream.t A) : M t A := zoom audio set_audio m.
Definition on_gemini {A} (m : M GeminiSession.t A) : M t A := zoom gemini set_gemini m.

(** [__init__] *)
Definition init (session_name : string) (audio_device : option Z) : M t unit :=
  modify (fun _ => mk (FeedbackLogger.mk "" false 0) (AudioStream.init audio_device)
                      GeminiSession.init false 0 0) ;;
  on_logger (FeedbackLogger.init env session_name).

(** An [await] gives the other tasks a turn; the one that matters to a
    loop is [shutdown] clearing [self.running] (line 98). *)
Definition suspend : M t unit :=
  fun a w =>
    (Ok tt,
     if stop_requested env (tick w) then set_running false a else a,
     mkWorld (S (tick w)) (trace w)).

(** [await asyncio.sleep(seconds)] *)
Definition sleep (seconds : Q) : M t unit :=
  emit (EvSleep seconds) ;; suspend.

(** Lines 49-51 of [run], before the three tasks are gathered. *)
Definition run_setup : M t unit :=
  on_gemini (GeminiSession.connect env) ;;
  on_audio (AudioStream.start env) ;;
  modify (set_running true).

(** [while self.running: iteration], for at most [fuel] iterations. *)
Fixpoint while_running (iteration : M t unit) (fuel : nat) : M t loop_status :=
  r <- gets running ;;
  if r : bool then
    match fuel with
    | O => ret OutOfFuel
    | S n => iteration ;; while_running iteration n
    end
  else ret Finished.

Definition screen_body : M t unit :=
  frame <- extern EvCaptureFrame (capture_frame env) ;;
  on_gemini (GeminiSession.send_frame env frame) ;;
  suspend ;;
  modify (fun a => set_frames_sent (frames_sent a + 1) a) ;;
  sleep FRAME_INTERVAL.

Definition screen_handler (e : exn) : M t unit :=
  emit (EvPrint ("Screen error: " ++ str_of_exn e)) ;;
  sleep 1.

Definition screen_iteration : M t unit := try_except screen_body screen_handler.

Definition _screen_loop (fuel : nat) : M t loop_status :=
  while_running screen_iteration fuel.

Definition audio_body : M t unit :=
  chunk <- on_audio (AudioStream.read_chunk env) ;;
  suspend ;;
  when (nonempty chunk)
    (on_gemini (GeminiSession.send_audio env chunk) ;;
     suspend ;;
     modify (fun a => set_audio_chunks_sent (audio_chunks_sent a + 1) a)).

Definition audio_handler (e : exn) : M t unit :=
  emit (EvPrint ("Audio error: " ++ str_of_exn e)) ;;
  sleep (1 # 10).

Definition audio_iteration : M t unit := try_except audio_body audio_handler.

Definition _audio_loop (fuel : nat) : M t loop_status :=
  while_running audio_iteration fuel.

(** The response task of [run]: the session's listener with the logger's
    [log_response] as callback. *)
Definition listen_for_responses (fuel : nat) : M t loop_status :=
  GeminiSession.listen_for_responses env t gemini
    (fun s => on_logger (FeedbackLogger.log_response env s)) fuel.

Definition shutdown : M t unit :=
  modify (set_running false) ;;
  on_audio (AudioStream.stop env) ;;
  on_gemini (GeminiSession.disconnect env) ;;
  chunks <- gets audio_chunks_sent ;;
  let audio_seconds := audio_seconds_of chunks in
  frames <- gets frames_sent ;;
  on_logger (FeedbackLogger.log_stats env frames audio_seconds) ;;
  on_logger FeedbackLogger.close.

End Methods.

End WorkshopAttendee.

(** ** audio_stream.py: the device listing *)

Module AudioDevices.

(** What [pa.get_device_info_by_index(i)] answers, as far as it is read. *)
Record DeviceInfo : Type := mkInfo {
  name : string;
  maxInputChannels : Z;
  defaultSampleRate : Q
}.

(** An entry of the list [AudioStream.list_devices] returns. *)
Record Entry : Type := mkEntry {
  index : Z;
  entry_name : string;
  channels : Z;
  sample_rate : Z
}.

(** The loop [for i in range(self.pa.get_device_count())], from device [i]
    on; [infos] are the device table's answers in order. *)
Fixpoint list_devices_from (i : Z) (infos : list DeviceInfo) : list Entry :=
  match infos with
  | [] => []
  | info :: rest =>
      if 0 <? maxInputChannels info
      then mkEntry i (name info) (maxInputChannels info)
             (AudioStream.truncate (defaultSampleRate info))
           :: list_devices_from (i + 1) rest
      else list_devices_from (i + 1) rest
  end.

Definition list_devices (infos : list DeviceInfo) : list Entry :=
  list_devices_from 0 infos.

End AudioDevices.

(** ** screen_capture.py *)

Module ScreenCapture.

(** A monitor as [mss] reports it. *)
Record MssMonitor : Type := mkMss {
  mss_left : Z;
  mss_top : Z;
  mss_width : Z;
  mss_height : Z
}.

(** An entry of [ScreenCapture._monitors]. *)
Record Region : Type := mkRegion {
  left : Z;
  top : Z;
  right : Z;
  bottom : Z;
  width : Z;
  height : Z
}.

Definition region_of (m : MssMonitor) : Region :=
  mkRegion (mss_left m) (mss_top m)
           (mss_left m + mss_width m) (mss_top m + mss_height m)
           (mss_width m) (mss_height m).

(** The class attribute [_monitors], shared by all instances: [None] until
    the first detection. *)
Definition cache : Type := option (list Region).

Record t : Type := mk { monitor_index : Z; max_height : Z }.

(** An entry of [list_monitors]. *)
Inductive Entry : Type :=
| FullDesktop (index : Z)
| Monitor (index : Z) (region : Region).

(** [{"index": i+1, **m} for i, m in enumerate(...)], counting from [i]. *)
Fixpoint enumerate_from (i : Z) (regions : list Region) : list Entry :=
  match regions with
  | [] => []
  | m :: rest => Monitor (i + 1) m :: enumerate_from (i + 1) rest
  end.

(** [l[i]] on a Python list: negative indices count from the end; [None]
    is [IndexError]. *)
Definition getitem {A} (l : list A) (i : Z) : option A :=
  let n := Z.of_nat (List.length l) in
  if 0 <=? i then nth_error l (Z.to_nat i)
  else if - n <=? i then nth_error l (Z.to_nat (n + i))
  else None.

Definition BBox : Type := Z * Z * Z * Z.

Definition bbox_of (m : Region) : BBox := (left m, top m, right m, bottom m).

(** Lines 66-77 of [capture_frame]: what [pyscreenshot.grab] is asked for;
    [None] is [grab()], the full desktop. *)
Definition grab_bbox (self : t) (monitors : cache) : option BBox :=
  match monitors with
  | None => None
  | Some [] => None
  | Some regions =>
      if monitor_index self =? 0 then None
      else
        match getitem regions (monitor_index self - 1) with
        | Some m => Some (bbox_of m)
        | None => None
        end
  end.

Section Methods.
(** [mss.mss().monitors] (after [import mss]) at a tick. *)
Variable mss_monitors : nat -> result (list MssMonitor).

Definition consult : M cache (list MssMonitor) :=
  fun c w => (mss_monitors (tick w), c, mkWorld (S (tick w)) (trace w)).

Definition _detect_monitors : M cache unit :=
  try_except
    (ms <- consult ;;
     modify (fun _ => Some (map region_of (tl ms))))
    (fun _ => modify (fun _ => Some [])).

(** [__init__] *)
Definition init (monitor_index max_height : Z) : M cache t :=
  c <- gets (fun c => c) ;;
  match c with
  | None => _detect_monitors
  | Some _ => ret tt
  end ;;
  ret (mk monitor_index max_height).

End Methods.

Definition list_monitors : M cache (list Entry) :=
  c <- gets (fun c => c) ;;
  match c with
  | Some regions => ret (FullDesktop 0 :: enumerate_from 0 regions)
  | None => raise (mkExn TypeError "'NoneType' object is not iterable")
  end.

End ScreenCapture.

(** * Vocabulary of the statements *)

Section Vocabulary.
Variable env : Env.

(** The world one tick later, nothing new in the trace. *)
Definition advance (w : World) : World := mkWorld (S (tick w)) (trace w).

Definition closed_file_error : exn := mkExn ValueError "I/O operation on closed file.".

(** The four lines of a stats block, stamped from tick [n] on. *)
Definition stats_block (n : nat) (frames : Z) (secs : Q) (responses : Z) : string :=
  (FeedbackLogger.log_line (clock env n) "--- SESSION STATS ---" ++
   FeedbackLogger.log_line (clock env (S n)) ("Frames sent: " ++ str_of_int frames) ++
   FeedbackLogger.log_line (clock env (S (S n)))
     ("Audio duration: " ++ FeedbackLogger.format_1f secs ++ "s") ++
   FeedbackLogger.log_line (clock env (S (S (S n))))
     ("Responses received: " ++ str_of_int responses))%string.

(** The session once steps 1 and 2 of [shutdown] are over. *)
Definition after_stop (s : WorkshopAttendee.t) : WorkshopAttendee.t :=
  WorkshopAttendee.set_audio
    (AudioStream.set_running false (WorkshopAttendee.audio s))
    (WorkshopAttendee.set_running false s).

(** The session a completed [shutdown] leaves, the stats block being
    stamped from tick [n] on. *)
Definition finalized (s : WorkshopAttendee.t) (n : nat) : WorkshopAttendee.t :=
  WorkshopAttendee.mk
    (FeedbackLogger.mk
       (FeedbackLogger.file (WorkshopAttendee.logger s) ++
        stats_block n (WorkshopAttendee.frames_sent s)
          (WorkshopAttendee.audio_seconds_of (WorkshopAttendee.audio_chunks_sent s))
          (FeedbackLogger.response_count (WorkshopAttendee.logger s)))
       true
       (FeedbackLogger.response_count (WorkshopAttendee.logger s)))
    (AudioStream.set_running false (WorkshopAttendee.audio s))
    (GeminiSession.set_running false (WorkshopAttendee.gemini s))
    false (WorkshopAttendee.frames_sent s) (WorkshopAttendee.audio_chunks_sent s).

(** An iteration that returns normally from every state. *)
Definition total (iteration : M WorkshopAttendee.t unit) : Prop :=
  forall s w, exists s' w', iteration s w = (Ok tt, s', w').

(** The session after a suspension at world [w]. *)
Definition after_suspend (s : WorkshopAttendee.t) (w : World) : WorkshopAttendee.t :=
  if stop_requested env (tick w) then WorkshopAttendee.set_running false s else s.

End Vocabulary.

(** The precedence as the specification words it: the direct text if
    present and non-empty, else the first non-empty text part of the model
    turn, else the output-transcription text; the first match wins. *)
Definition first_match_text (response : Wire.Response) : option string :=
  if truthy (Wire.text response) then Wire.text response
  else
    match Wire.server_content response with
    | Some sc =>
        match
          match Wire.model_turn sc with
          | Some mt => GeminiSession.first_text (Wire.parts mt)
          | None => None
          end
        with
        | Some s => Some s
        | None =>
            match Wire.output_transcription sc with
            | Some ot => Wire.transcription_text ot
            | None => None
            end
        end
    | None => None
    end.

Definition no_text (ps : list Wire.Part) : Prop :=
  Forall (fun p => truthy (Wire.part_text p) = false) ps.

(** ** Concrete collaborators and sessions *)

(** The devices and the link of [env_ok] never fail and nobody asks to
    stop; its microphone delivers one two-sample block per read.  Its
    resampler holds the first input sample and, as
    [scipy.signal.resample] does, rejects an empty input and a request
    for no samples. *)
Definition block0 : bytes := [Byte.x01; Byte.x00; Byte.x02; Byte.x00].

Definition zero_points_error : exn :=
  mkExn ValueError "invalid number of data points (0) specified".

Definition hold_first (xs : list Z) (n : Z) : result (list Q) :=
  match xs with
  | [] => Raise zero_points_error
  | x :: _ =>
      if n <=? 0 then Raise zero_points_error
      else Ok (repeat (inject_Z x) (Z.to_nat n))
  end.

Definition env_ok : Env :=
  mkEnv (fun _ => "12:00:00") (fun _ => Ok "JPEG") (fun _ => Ok 48000)
        (fun _ _ => Ok tt) (fun _ => Ok block0)
        (fun _ => Ok tt) (fun _ => Ok tt) (fun _ => Ok tt)
        hold_first
        (fun _ => Ok tt) (fun _ => Ok tt) (fun _ => Ok tt)
        (fun _ => Ok None) (fun _ => false).

Definition stream_error : exn := mkExn OSError "Stream not open".
Definition grab_error : exn := mkExn OSError "screenshot failed".
Definition overflow_error : exn := mkExn OSError "Input overflowed".

(** Collaborators whose [stop_stream] fails. *)
Definition env_stop_fails : Env :=
  mkEnv (clock env_ok) (capture_frame env_ok) (device_rate env_ok)
        (pa_open env_ok) (stream_read env_ok)
        (fun _ => Raise stream_error) (stream_close env_ok) (pa_terminate env_ok)
        (resample env_ok) (aenter env_ok) (aexit env_ok)
        (send_realtime_input env_ok) (receive env_ok) (stop_requested env_ok).

(** Collaborators whose screen grab and device read fail every time. *)
Definition env_capture_fails : Env :=
  mkEnv (clock env_ok) (fun _ => Raise grab_error) (device_rate env_ok)
        (pa_open env_ok) (fun _ => Raise overflow_error)
        (stop_stream env_ok) (stream_close env_ok) (pa_terminate env_ok)
        (resample env_ok) (aenter env_ok) (aexit env_ok)
        (send_realtime_input env_ok) (receive env_ok) (stop_requested env_ok).

(** A 16 kHz microphone delivering blocks of 1024 samples. *)
Definition env_16k : Env :=
  mkEnv (clock env_ok) (capture_frame env_ok) (fun _ => Ok 16000)
        (pa_open env_ok) (fun _ => Ok (repeat Byte.x00 2048))
        (stop_stream env_ok) (stream_close env_ok) (pa_terminate env_ok)
        (resample env_ok) (aenter env_ok) (aexit env_ok)
        (send_realtime_input env_ok) (receive env_ok) (stop_requested env_ok).

Fixpoint times {St} (n : nat) (m : M St unit) : M St unit :=
  match n with
  | O => ret tt
  | S k => m ;; times k m
  end.

(** The end-to-end scenario of the specification, the tasks run one after
    the other: a session is set up, 16 chunks of 1024 samples at 16 kHz and
    10 frames are sent, then the session is shut down. *)
Definition scenario : M WorkshopAttendee.t unit :=
  WorkshopAttendee.init env_16k "demo" (Some 5) ;;
  WorkshopAttendee.run_setup env_16k ;;
  times 16 (WorkshopAttendee.audio_iteration env_16k) ;;
  times 10 (WorkshopAttendee.screen_iteration env_16k) ;;
  WorkshopAttendee.shutdown env_16k.

Definition a16 : AudioStream.t := AudioStream.mk None true true (Some 16000).
Definition a48 : AudioStream.t := AudioStream.mk None true true (Some 48000).

(** A session in full swing: connected, recording at 16 kHz, 10 frames and
    16 audio chunks sent, 2 responses logged. *)
Definition s_live : WorkshopAttendee.t :=
  WorkshopAttendee.mk
    (FeedbackLogger.mk (FeedbackLogger.log_line "12:00:00" "Session started: demo")
       false 2)
    a16 (GeminiSession.mk true true true) true 10 16.

(** A session just constructed: nothing connected, nothing opened. *)
Definition s_fresh : WorkshopAttendee.t :=
  WorkshopAttendee.mk
    (FeedbackLogger.mk (FeedbackLogger.log_line "12:00:00" "Session started: demo")
       false 0)
    (AudioStream.init None) GeminiSession.init false 0 0.

(** An event with a model-turn text part and an output transcription. *)
Definition turn_and_transcript : Wire.Response :=
  Wire.mkResponse None
    (Some (Wire.mkServerContent
             (Some (Wire.mkContent
                      [Wire.mkPart None; Wire.mkPart (Some "OBSERVATION: slide 3")]))
             (Some (Wire.mkTranscription (Some "I noticed slide three."))))).

(** ** Vocabulary of the further properties *)

(** The test [if line.strip()] of [log_response]. *)
Definition is_nonblank (line : string) : bool :=
  negb (String.eqb (FeedbackLogger.strip line) "").

(** The lines [log_response] writes for [text]: the non-blank lines of the
    stripped text. *)
Definition nonblank_lines (text : string) : list string :=
  filter is_nonblank (FeedbackLogger.split_lines (FeedbackLogger.strip text)).

(** [lines] written one after the other, stamped from tick [n] on. *)
Fixpoint stamped (env : Env) (n : nat) (lines : list string) : string :=
  match lines with
  | [] => ""
  | line :: rest =>
      (FeedbackLogger.log_line (clock env n) line ++ stamped env (S n) rest)%string
  end.

Definition whitespace_only (text : string) : Prop :=
  Forall (fun c => FeedbackLogger.is_space c = true) (list_ascii_of_string text).

(** A 16-bit signed sample. *)
Definition int16 (z : Z) : Prop := -32768 <= z < 32768.

(** The rates [start] tries on the default device, in order. *)
Definition candidate_rates : list Z := [48000; 44100; 16000].

Definition no_rate_error : exn :=
  mkExn OSError "Could not open audio stream at any sample rate".

Definition odd_buffer_error : exn :=
  mkExn ValueError "buffer size must be a multiple of element size".

(** The world after one more interaction [ev]. *)
Definition after_event (ev : Event) (w : World) : World :=
  mkWorld (S (tick w)) (trace w ++ [ev]).

Definition no_session_error : exn :=
  mkExn AttributeError "'NoneType' object has no attribute 'receive'".

(** The world after the listener's handler met exception [e] with the
    link's running flag [running]. *)
Definition after_report (running : bool) (e : exn) (w : World) : World :=
  if running
  then mkWorld (tick w)
         (trace w ++ [EvPrint ("Response listener error: " ++ str_of_exn e)])
  else w.

(** The entry [list_devices] makes of device [i] with table answer [info]. *)
Definition device_entry (i : Z) (info : AudioDevices.DeviceInfo) : AudioDevices.Entry :=
  AudioDevices.mkEntry i (AudioDevices.name info) (AudioDevices.maxInputChannels info)
    (AudioStream.truncate (AudioDevices.defaultSampleRate info)).

(** A device table: speakers, a microphone, a two-channel interface. *)
Definition demo_devices : list AudioDevices.DeviceInfo :=
  [AudioDevices.mkInfo "HDMI" 0 (48000 # 1);
   AudioDevices.mkInfo "HyperX" 1 (44100 # 1);
   AudioDevices.mkInfo "Line in" 2 (96001 # 2)].

(** Two monitors side by side, after the combined one. *)
Definition demo_monitors : list ScreenCapture.MssMonitor :=
  [ScreenCapture.mkMss 0 0 3840 1080;
   ScreenCapture.mkMss 0 0 1920 1080;
   ScreenCapture.mkMss 1920 0 1920 1080].

Definition demo_regions : list ScreenCapture.Region :=
  map ScreenCapture.region_of (tl demo_monitors).

(** ** Further concrete collaborators and inputs *)

(** A response of two lines around a blank one, with blanks at both ends. *)
Definition two_line_text : string :=
  ("  OBSERVATION: slide 3" ++ FeedbackLogger.newline ++ FeedbackLogger.newline
   ++ " QUESTION: why?  ")%string.

Definition blank_text : string := ("  " ++ FeedbackLogger.newline ++ " ")%string.

Definition a8 : AudioStream.t := AudioStream.mk None true true (Some 8000).

Definition busy_error : exn := mkExn OSError "Invalid sample rate".
Definition auth_error : exn := mkExn ValueError "API key not valid".

(** A default device that does not open at 48 kHz. *)
Definition env_48k_busy : Env :=
  mkEnv (clock env_ok) (capture_frame env_ok) (device_rate env_ok)
        (fun rate _ => if rate =? 48000 then Raise busy_error else Ok tt)
        (stream_read env_ok)
        (stop_stream env_ok) (stream_close env_ok) (pa_terminate env_ok)
        (resample env_ok) (aenter env_ok) (aexit env_ok)
        (send_realtime_input env_ok) (receive env_ok) (stop_requested env_ok).

(** A remote session that refuses the connection. *)
Definition env_no_auth : Env :=
  mkEnv (clock env_ok) (capture_frame env_ok) (device_rate env_ok)
        (pa_open env_ok) (stream_read env_ok)
        (stop_stream env_ok) (stream_close env_ok) (pa_terminate env_ok)
        (resample env_ok) (fun _ => Raise auth_error) (aexit env_ok)
        (send_realtime_input env_ok) (receive env_ok) (stop_requested env_ok).

(** A remote session that sends one event and closes the stream. *)
Definition env_one_response : Env :=
  mkEnv (clock env_ok) (capture_frame env_ok) (device_rate env_ok)
        (pa_open env_ok) (stream_read env_ok)
        (stop_stream env_ok) (stream_close env_ok) (pa_terminate env_ok)
        (resample env_ok) (aenter env_ok) (aexit env_ok)
        (send_realtime_input env_ok)
        (fun n => match n with O => Ok (Some turn_and_transcript) | _ => Ok None end)
        (stop_requested env_ok).

(** "hello" between two no-break spaces (U+00A0, bytes C2 A0). *)
Definition nbsp : string :=
  String (ascii_of_nat 194) (String (ascii_of_nat 160) EmptyString).

Definition nbsp_text : string := (nbsp ++ "hello" ++ nbsp)%string.

Ltac case_stop_requests :=
  repeat match goal with
         | |- context [stop_requested ?e ?n] => destruct (stop_requested e n)
         end.

Ltac unfold_monad :=
  unfold bind, ret, raise, gets, modify, when, zoom, extern, emit, try_except,
    result_of, state_of, world_of in *.

(** * Properties *)



(** ** SessionLink: sending and disconnecting *)

Section SessionLink.
Variable env : Env.
Import GeminiSession.

Lemma disconnect_spec (g : t) (w : World) :
  exists w', disconnect env g w = (Ok tt, set_running false g, w').
Proof.
  unfold disconnect. unfold_monad. cbn.
  destruct (session_ctx g); cbn.
  - destruct (aexit env (tick w)) as [[]|e]; eexists; reflexivity.
  - eexists; reflexivity.
Qed.

(** C7. Sending on a link that is not connected does nothing: when the
    session is absent or the running flag is false, [send_frame] and
    [send_audio] return normally, leave the link as it is and call nothing
    on the channel; in particular this is so after any [disconnect]. *)
Theorem send_media_not_connected_is_noop
    (g : t) (w : World) (base64_jpeg : string) (pcm_data : bytes) :
  (session g = false \/ running g = false ->
   send_frame env base64_jpeg g w = (Ok tt, g, w) /\
   send_audio env pcm_data g w = (Ok tt, g, w)) /\
  (let d := disconnect env g w in
   send_frame env base64_jpeg (state_of d) (world_of d)
     = (Ok tt, state_of d, world_of d) /\
   send_audio env pcm_data (state_of d) (world_of d)
     = (Ok tt, state_of d, world_of d)).
Proof.
  assert (noop : forall g1 w1, session g1 && running g1 = false ->
            send_frame env base64_jpeg g1 w1 = (Ok tt, g1, w1) /\
            send_audio env pcm_data g1 w1 = (Ok tt, g1, w1)).
  { intros g1 w1 E. unfold send_frame, send_audio. unfold_monad. cbn.
    rewrite E. split; reflexivity. }
  split.
  - intros H. apply noop.
    destruct H as [-> | ->]; [reflexivity | apply andb_false_r].
  - cbn zeta. destruct (disconnect_spec g w) as [w1 E1]. rewrite E1.
    unfold state_of, world_of; cbn [fst snd].
    apply noop. cbn. apply andb_false_r.
Qed.

(** C8. [disconnect] never raises and leaves the running flag false,
    whatever the channel's release does; a second call, and a call on a
    link that was never connected, behave the same and change nothing
    more. *)
Theorem disconnect_total_idempotent (g : t) (w : World) :
  let once := disconnect env g w in
  let twice := disconnect env (state_of once) (world_of once) in
  result_of once = Ok tt /\ running (state_of once) = false /\
  result_of twice = Ok tt /\ running (state_of twice) = false /\
  state_of twice = state_of once /\
  disconnect env init w = (Ok tt, init, w).
Proof.
  cbn zeta.
  destruct (disconnect_spec g w) as [w1 E1]. rewrite E1.
  unfold result_of, state_of, world_of; cbn [fst snd].
  destruct (disconnect_spec (set_running false g) w1) as [w2 E2]. rewrite E2.
  cbn [fst snd]. repeat split; reflexivity.
Qed.

End SessionLink.

(** A link with the session absent: the hypothesis of C7 at work. *)
Lemma send_media_not_connected_is_noop_witness :
  (GeminiSession.session GeminiSession.init = false \/
   GeminiSession.running GeminiSession.init = false) /\
  GeminiSession.send_frame env_ok "JPEG" GeminiSession.init world0
    = (Ok tt, GeminiSession.init, world0).
Proof.
  split.
  - left. reflexivity.
  - apply (proj1 (send_media_not_connected_is_noop
                    env_ok GeminiSession.init world0 "JPEG" [])).
    left. reflexivity.
Defined.

(** ** RateConverter and the microphone *)

Lemma round_half_even_cases (q : Q) :
  round_half_even q = Qnum q / Zpos (Qden q) \/
  round_half_even q = Qnum q / Zpos (Qden q) + 1.
Proof.
  unfold round_half_even. cbn zeta.
  destruct (2 * (Qnum q mod Zpos (Qden q)) <? Zpos (Qden q)); [now left|].
  destruct (Zpos (Qden q) <? 2 * (Qnum q mod Zpos (Qden q))); [now right|].
  destruct (Z.even (Qnum q / Zpos (Qden q))); [now left | now right].
Qed.

Lemma round_half_even_zero (q : Q) :
  0 <= Qnum q -> round_half_even q = 0 -> Qnum q / Zpos (Qden q) = 0.
Proof.
  intros Hn H.
  assert (0 <= Qnum q / Zpos (Qden q)) by (apply Z.div_pos; lia).
  destruct (round_half_even_cases q); lia.
Qed.

Section RateConverter.
Variable env : Env.
Import AudioStream.

Lemma tobytes_nil_iff (xs : list Z) : tobytes xs = [] <-> xs = [].
Proof. destruct xs; cbn; split; congruence. Qed.

Lemma tobytes_length (xs : list Z) :
  List.length (tobytes xs) = (2 * List.length xs)%nat.
Proof. induction xs as [|x xs IH]; cbn; [reflexivity | rewrite IH; lia]. Qed.

Lemma frombuffer_length_pair (data : bytes) :
  (forall samples, frombuffer data = Some samples ->
     List.length data = (2 * List.length samples)%nat) /\
  (forall b samples, frombuffer (b :: data) = Some samples ->
     List.length (b :: data) = (2 * List.length samples)%nat).
Proof.
  induction data as [|x rest [IH1 IH2]]; split.
  - cbn. intros samples H. injection H as <-. reflexivity.
  - cbn. discriminate.
  - exact (IH2 x).
  - intros b samples. cbn [frombuffer].
    destruct (frombuffer rest) as [xs|] eqn:E; [|discriminate].
    intros H. injection H as <-. specialize (IH1 xs eq_refl). cbn in *. lia.
Qed.

Lemma frombuffer_length (data : bytes) (samples : list Z) :
  frombuffer data = Some samples ->
  List.length data = (2 * List.length samples)%nat.
Proof. apply frombuffer_length_pair. Qed.

(** When the stream is open and running, [read_chunk] is the device read
    followed by the conversion. *)
Lemma read_chunk_open (a : t) (w : World) :
  stream a = true -> running a = true ->
  read_chunk env a w =
    match stream_read env (tick w) with
    | Ok data =>
        to_target_rate env data a
          (mkWorld (S (tick w)) (trace w ++ [EvStreamRead CHUNK]))
    | Raise e =>
        (Raise e, a, mkWorld (S (tick w)) (trace w ++ [EvStreamRead CHUNK]))
    end.
Proof.
  intros Hs Hr. unfold read_chunk. unfold_monad. cbn. rewrite Hs, Hr. cbn.
  destruct (stream_read env (tick w)); reflexivity.
Qed.

Lemma read_chunk_idle (a : t) (w : World) :
  stream a = false \/ running a = false ->
  read_chunk env a w = (Ok [], a, w).
Proof.
  intros H. unfold read_chunk. unfold_monad. cbn.
  destruct H as [-> | ->]; [reflexivity | rewrite orb_true_r; reflexivity].
Qed.

(** C5. At equal rates the conversion is the identity: when the native
    rate is the target rate, the conversion step returns the block it was
    given, byte for byte, and [read_chunk] returns what the device read
    delivered. *)
Theorem conversion_identity_at_equal_rates (a : t) (w : World) (data : bytes) :
  native_rate a = Some TARGET_RATE ->
  to_target_rate env data a w = (Ok data, a, w) /\
  (stream a = true -> running a = true ->
   stream_read env (tick w) = Ok data ->
   result_of (read_chunk env a w) = Ok data /\
   state_of (read_chunk env a w) = a).
Proof.
  intros Hn.
  assert (conv : forall w1, to_target_rate env data a w1 = (Ok data, a, w1)).
  { intros w1. unfold to_target_rate. unfold_monad. cbn. rewrite Hn. reflexivity. }
  split; [apply conv|].
  intros Hs Hr Hd. rewrite (read_chunk_open a w Hs Hr), Hd, conv.
  split; reflexivity.
Qed.


Lemma num_samples_floor (len native : Z) :
  0 <= len -> 0 < native ->
  num_samples len native = (len * TARGET_RATE) / native.
Proof.
  intros Hl Hn. unfold num_samples, TARGET_RATE.
  apply Z.quot_div_nonneg; lia.
Qed.

End RateConverter.


(** A 16 kHz device: the block read comes back as it is. *)
Lemma conversion_identity_at_equal_rates_witness :
  AudioStream.native_rate a16 = Some AudioStream.TARGET_RATE /\
  AudioStream.to_target_rate env_ok block0 a16 world0 = (Ok block0, a16, world0) /\
  result_of (AudioStream.read_chunk env_ok a16 world0) = Ok block0.
Proof.
  split; [reflexivity|].
  destruct (conversion_identity_at_equal_rates env_ok a16 world0 block0 eq_refl)
    as [H1 H2].
  split; [exact H1|].
  apply (H2 eq_refl eq_refl eq_refl).
Defined.

(** ** The log sink *)

Section LogSink.
Variable env : Env.
Import FeedbackLogger.



Lemma log_eq (message : string) (l : t) (w : World) :
  _log env message l w =
    if file_closed l then (Raise closed_file_error, l, advance w)
    else (Ok tt, write (log_line (clock env (tick w)) message) l, advance w).
Proof.
  unfold _log, now. unfold_monad. cbn.
  destruct (file_closed l); reflexivity.
Qed.

Lemma log_stats_closed (frames : Z) (secs : Q) (l : t) (w : World) :
  file_closed l = true ->
  log_stats env frames secs l w = (Raise closed_file_error, l, advance w).
Proof.
  intros H. unfold log_stats, bind at 1. rewrite log_eq, H. reflexivity.
Qed.


Lemma append_assoc (a b c : string) : ((a ++ b) ++ c = a ++ (b ++ c))%string.
Proof. induction a as [|x a IH]; cbn; [reflexivity | rewrite IH; reflexivity]. Qed.

Lemma log_stats_open (frames : Z) (secs : Q) (l : t) (w : World) :
  file_closed l = false ->
  log_stats env frames secs l w =
    (Ok tt,
     write (stats_block env (tick w) frames secs (response_count l)) l,
     mkWorld (4 + tick w) (trace w)).
Proof.
  intros H. unfold log_stats.
  unfold bind at 1. rewrite log_eq, H.
  unfold bind at 1. rewrite log_eq. cbn [file_closed write]. rewrite H.
  unfold bind at 1. rewrite log_eq. cbn [file_closed write]. rewrite H.
  unfold bind at 1. unfold gets at 1.
  rewrite log_eq. cbn [file_closed write response_count]. rewrite H.
  unfold write, stats_block, advance. cbn [file file_closed response_count tick trace].
  rewrite !append_assoc. reflexivity.
Qed.

End LogSink.

(** ** The orchestrator: shutdown *)

Section Shutdown.
Variable env : Env.
Import WorkshopAttendee.

Lemma stop_state (a : AudioStream.t) (w : World) :
  state_of (AudioStream.stop env a w) = AudioStream.set_running false a.
Proof.
  unfold AudioStream.stop. unfold_monad. cbn.
  destruct (AudioStream.stream a); cbn.
  - destruct (stop_stream env (tick w)) as [[]|e]; cbn; [|reflexivity].
    destruct (stream_close env (S (tick w))) as [[]|e]; cbn; [|reflexivity].
    destruct (pa_terminate env (S (S (tick w)))) as [[]|e]; reflexivity.
  - destruct (pa_terminate env (tick w)) as [[]|e]; reflexivity.
Qed.

(** [shutdown], step by step. *)
Lemma shutdown_eq (s : t) (w : World) :
  shutdown env s w =
    let s0 := set_running false s in
    match AudioStream.stop env (audio s) w with
    | (Raise e, a1, w1) => (Raise e, set_audio a1 s0, w1)
    | (Ok _, a1, w1) =>
        let s1 := set_audio a1 s0 in
        match GeminiSession.disconnect env (gemini s) w1 with
        | (Raise e, g1, w2) => (Raise e, set_gemini g1 s1, w2)
        | (Ok _, g1, w2) =>
            let s2 := set_gemini g1 s1 in
            match FeedbackLogger.log_stats env (frames_sent s)
                    (audio_seconds_of (audio_chunks_sent s)) (logger s) w2 with
            | (Raise e, l1, w3) => (Raise e, set_logger l1 s2, w3)
            | (Ok _, l1, w3) =>
                (Ok tt,
                 set_logger (FeedbackLogger.mk (FeedbackLogger.file l1) true
                               (FeedbackLogger.response_count l1)) s2,
                 w3)
            end
        end
    end.
Proof.
  unfold shutdown, on_audio, on_gemini, on_logger, FeedbackLogger.close.
  unfold_monad.
  cbn -[AudioStream.stop GeminiSession.disconnect FeedbackLogger.log_stats].
  destruct (AudioStream.stop env (audio s) w) as [[[u|e] a1] w1];
    cbn -[GeminiSession.disconnect FeedbackLogger.log_stats]; [|reflexivity].
  destruct (GeminiSession.disconnect env (gemini s) w1) as [[[u'|e] g1] w2];
    cbn -[FeedbackLogger.log_stats]; [|reflexivity].
  destruct (FeedbackLogger.log_stats env (frames_sent s)
              (audio_seconds_of (audio_chunks_sent s)) (logger s) w2)
    as [[[u''|e] l1] w3]; reflexivity.
Qed.


Lemma stop_triple (a : AudioStream.t) (w : World) :
  AudioStream.stop env a w =
    (result_of (AudioStream.stop env a w), AudioStream.set_running false a,
     world_of (AudioStream.stop env a w)).
Proof.
  rewrite <- (stop_state a w). unfold result_of, state_of, world_of.
  destruct (AudioStream.stop env a w) as [[r a1] w1]. reflexivity.
Qed.


Lemma shutdown_stop_raises (s : t) (w : World) (e : exn) :
  result_of (AudioStream.stop env (audio s) w) = Raise e ->
  shutdown env s w
    = (Raise e, after_stop s, world_of (AudioStream.stop env (audio s) w)).
Proof.
  intros H. rewrite shutdown_eq. cbn zeta.
  rewrite (stop_triple (audio s) w), H. reflexivity.
Qed.

Lemma shutdown_stop_returns (s : t) (w : World) :
  result_of (AudioStream.stop env (audio s) w) = Ok tt ->
  exists w2 : World,
    shutdown env s w =
      if FeedbackLogger.file_closed (logger s)
      then (Raise closed_file_error,
            set_gemini (GeminiSession.set_running false (gemini s)) (after_stop s),
            advance w2)
      else (Ok tt, finalized env s (tick w2), mkWorld (4 + tick w2) (trace w2)).
Proof.
  intros H. rewrite shutdown_eq. cbn zeta.
  rewrite (stop_triple (audio s) w), H.
  destruct (disconnect_spec env (gemini s)
              (world_of (AudioStream.stop env (audio s) w))) as [w2 E].
  rewrite E. exists w2.
  destruct (FeedbackLogger.file_closed (logger s)) eqn:Hc.
  - rewrite (log_stats_closed env _ _ _ _ Hc).
    destruct s as [l a g r f c]. cbn in *.
    destruct l as [fl cl rc]. cbn in *. subst cl. reflexivity.
  - rewrite (log_stats_open env _ _ _ _ Hc). reflexivity.
Qed.

(** C3 (amended). The steps of [shutdown] run in sequence, with no
    guaranteed-release scope around them.  When stopping the audio
    acquisition primitive (step 2) raises, the exception leaves [shutdown]
    at once: the link is not disconnected, nothing is written to the log
    sink and the sink stays as it was.  When step 2 returns, the link is
    disconnected whatever its channel's release does, the stats block is
    written to the open sink and the sink is closed. *)
Theorem shutdown_steps_in_sequence (s : t) (w : World) :
  let stopped := AudioStream.stop env (audio s) w in
  (forall e, result_of stopped = Raise e ->
     shutdown env s w = (Raise e, after_stop s, world_of stopped) /\
     gemini (after_stop s) = gemini s /\
     logger (after_stop s) = logger s) /\
  (result_of stopped = Ok tt ->
   FeedbackLogger.file_closed (logger s) = false ->
   exists w2 : World,
     shutdown env s w
       = (Ok tt, finalized env s (tick w2), mkWorld (4 + tick w2) (trace w2)) /\
     GeminiSession.running (gemini (finalized env s (tick w2))) = false /\
     FeedbackLogger.file_closed (logger (finalized env s (tick w2))) = true).
Proof.
  cbn zeta. split.
  - intros e H. split; [apply shutdown_stop_raises; exact H|].
    split; reflexivity.
  - intros H Hc. destruct (shutdown_stop_returns s w H) as [w2 E].
    rewrite Hc in E. exists w2. split; [exact E|]. split; reflexivity.
Qed.

Lemma finalized_after_stop (s : t) (n : nat) :
  after_stop (finalized env s n) = finalized env s n.
Proof. reflexivity. Qed.

(** C4 (amended). After a [shutdown] that completed, a second [shutdown]
    leaves the session state and the content of the log file exactly as
    the first call left them (no second stats block), but it does not
    return normally: it raises, at the latest when [log_stats] writes to
    the log file the first call closed. *)
Theorem second_shutdown_changes_nothing_but_raises (s : t) (w : World) :
  result_of (shutdown env s w) = Ok tt ->
  let once := shutdown env s w in
  let twice := shutdown env (state_of once) (world_of once) in
  raises (result_of twice) /\
  state_of twice = state_of once /\
  FeedbackLogger.file (logger (state_of twice))
    = FeedbackLogger.file (logger (state_of once)).
Proof.
  intros Hok. cbn zeta.
  assert (Hshape : exists n w1, shutdown env s w = (Ok tt, finalized env s n, w1)).
  { destruct (result_of (AudioStream.stop env (audio s) w)) as [[]|e] eqn:Hs.
    - destruct (shutdown_stop_returns s w Hs) as [w2 E].
      destruct (FeedbackLogger.file_closed (logger s)).
      + rewrite E in Hok. discriminate Hok.
      + eauto.
    - rewrite (shutdown_stop_raises s w e Hs) in Hok. discriminate Hok. }
  destruct Hshape as (n & w1 & E1). rewrite E1.
  change (state_of (Ok tt, finalized env s n, w1)) with (finalized env s n).
  change (world_of (Ok tt, finalized env s n, w1)) with w1.
  assert (Hsame : raises (result_of (shutdown env (finalized env s n) w1)) /\
                  state_of (shutdown env (finalized env s n) w1) = finalized env s n).
  { destruct (result_of (AudioStream.stop env (audio (finalized env s n)) w1))
      as [[]|e] eqn:Hs.
    - destruct (shutdown_stop_returns (finalized env s n) w1 Hs) as [w2 E2].
      cbn [FeedbackLogger.file_closed logger finalized] in E2.
      rewrite E2. split; [eexists; reflexivity | reflexivity].
    - rewrite (shutdown_stop_raises _ w1 e Hs).
      split; [eexists; reflexivity | reflexivity]. }
  destruct Hsame as [Hr Hst]. split; [exact Hr|]. split; [exact Hst|].
  rewrite Hst. reflexivity.
Qed.

End Shutdown.

(** ** Shutdown on concrete sessions *)


Lemma audio_seconds_of_eq (chunks : Z) :
  (WorkshopAttendee.audio_seconds_of chunks == chunks * 1024 # 32000)%Q.
Proof.
  unfold WorkshopAttendee.audio_seconds_of, AudioStream.CHUNK, AudioStream.RATE,
    AudioStream.TARGET_RATE.
  unfold Qeq, Qdiv, Qmult, Qinv, inject_Z. cbn. lia.
Qed.

(** C1 (the code on the specification's scenario). After 16 chunks of 1024
    samples at 16 kHz, [shutdown] hands [log_stats] 16 * 1024 / 32000 =
    0.512 seconds, not 16 * 1024 / 16000 = 1.024: the stats block reads
    "Audio duration: 0.5s".  For every value of the counter the value
    handed over is half of [chunks * CHUNK / TARGET_RATE]. *)
Theorem shutdown_reports_half_the_audio_duration :
  let out := scenario s_fresh world0 in
  result_of out = Ok tt /\
  WorkshopAttendee.frames_sent (state_of out) = 10 /\
  WorkshopAttendee.audio_chunks_sent (state_of out) = 16 /\
  FeedbackLogger.file (WorkshopAttendee.logger (state_of out))
  = (FeedbackLogger.log_line "12:00:00" "Session started: demo" ++
     FeedbackLogger.log_line "12:00:00" "--- SESSION STATS ---" ++
     FeedbackLogger.log_line "12:00:00" "Frames sent: 10" ++
     FeedbackLogger.log_line "12:00:00" "Audio duration: 0.5s" ++
     FeedbackLogger.log_line "12:00:00" "Responses received: 0")%string /\
  (WorkshopAttendee.audio_seconds_of 16 == 512 # 1000)%Q /\
  ~ (WorkshopAttendee.audio_seconds_of 16
       == inject_Z (16 * AudioStream.CHUNK) / inject_Z AudioStream.TARGET_RATE)%Q /\
  (forall chunks : Z,
     WorkshopAttendee.audio_seconds_of chunks * 2
       == inject_Z (chunks * AudioStream.CHUNK) / inject_Z AudioStream.TARGET_RATE)%Q.
Proof.
  cbn zeta.
  split; [vm_compute; reflexivity|].
  split; [vm_compute; reflexivity|].
  split; [vm_compute; reflexivity|].
  split; [vm_compute; reflexivity|].
  split; [vm_compute; reflexivity|].
  split; [vm_compute; discriminate|].
  intros chunks.
  unfold WorkshopAttendee.audio_seconds_of, AudioStream.CHUNK, AudioStream.RATE,
    AudioStream.TARGET_RATE.
  unfold Qeq, Qdiv, Qmult, Qinv, inject_Z. cbn. lia.
Qed.

(** C3 (as stated, refuted). With a [stop_stream] that raises, [shutdown]
    leaves the link running, writes no stats and leaves the log file
    open. *)
Lemma stop_failure_skips_the_remaining_steps :
  let out := WorkshopAttendee.shutdown env_stop_fails s_live world0 in
  result_of (AudioStream.stop env_stop_fails (WorkshopAttendee.audio s_live) world0)
    = Raise stream_error /\
  result_of out = Raise stream_error /\
  GeminiSession.running (WorkshopAttendee.gemini (state_of out)) = true /\
  FeedbackLogger.file (WorkshopAttendee.logger (state_of out))
    = FeedbackLogger.file (WorkshopAttendee.logger s_live) /\
  FeedbackLogger.file_closed (WorkshopAttendee.logger (state_of out)) = false /\
  trace (world_of out) = [EvStopStream].
Proof. vm_compute. repeat split; reflexivity. Qed.

Lemma shutdown_steps_in_sequence_witness :
  WorkshopAttendee.shutdown env_stop_fails s_live world0
    = (Raise stream_error, after_stop s_live,
       world_of (AudioStream.stop env_stop_fails (WorkshopAttendee.audio s_live) world0)) /\
  exists w2 : World,
    WorkshopAttendee.shutdown env_ok s_live world0
      = (Ok tt, finalized env_ok s_live (tick w2), mkWorld (4 + tick w2) (trace w2)).
Proof.
  split.
  - apply (proj1 (shutdown_steps_in_sequence env_stop_fails s_live world0) stream_error).
    reflexivity.
  - destruct (proj2 (shutdown_steps_in_sequence env_ok s_live world0) eq_refl eq_refl)
      as (w2 & H & _).
    exists w2. exact H.
Defined.

(** C4 (as stated, refuted). With collaborators that never fail, the
    second of two [shutdown] calls raises [ValueError]. *)
Lemma second_shutdown_raises :
  let once := WorkshopAttendee.shutdown env_ok s_live world0 in
  result_of once = Ok tt /\
  result_of (WorkshopAttendee.shutdown env_ok (state_of once) (world_of once))
    = Raise closed_file_error.
Proof. vm_compute. split; reflexivity. Qed.

Lemma second_shutdown_changes_nothing_but_raises_witness :
  let once := WorkshopAttendee.shutdown env_ok s_live world0 in
  let twice := WorkshopAttendee.shutdown env_ok (state_of once) (world_of once) in
  result_of once = Ok tt /\
  raises (result_of twice) /\ state_of twice = state_of once.
Proof.
  cbn zeta. split; [reflexivity|].
  destruct (second_shutdown_changes_nothing_but_raises env_ok s_live world0 eq_refl)
    as (H1 & H2 & _).
  split; [exact H1 | exact H2].
Defined.

(** ** The capture producers *)

Section Producers.
Variable env : Env.
Import WorkshopAttendee.


Lemma try_except_ok {A} (body : M t A) (handler : exn -> M t A) s w a s1 w1 :
  body s w = (Ok a, s1, w1) -> try_except body handler s w = (Ok a, s1, w1).
Proof. intros H. unfold try_except. rewrite H. reflexivity. Qed.

Lemma try_except_raise {A} (body : M t A) (handler : exn -> M t A) s w e s1 w1 :
  body s w = (Raise e, s1, w1) -> try_except body handler s w = handler e s1 w1.
Proof. intros H. unfold try_except. rewrite H. reflexivity. Qed.


Lemma screen_handler_eq (e : exn) (s : t) (w : World) :
  screen_handler env e s w =
    (Ok tt, after_suspend env s w,
     mkWorld (S (tick w))
       (trace w ++ [EvPrint ("Screen error: " ++ str_of_exn e); EvSleep 1])).
Proof.
  unfold screen_handler, sleep, suspend, after_suspend. unfold_monad. cbn.
  rewrite <- app_assoc. reflexivity.
Qed.

Lemma audio_handler_eq (e : exn) (s : t) (w : World) :
  audio_handler env e s w =
    (Ok tt, after_suspend env s w,
     mkWorld (S (tick w))
       (trace w ++ [EvPrint ("Audio error: " ++ str_of_exn e); EvSleep (1 # 10)])).
Proof.
  unfold audio_handler, sleep, suspend, after_suspend. unfold_monad. cbn.
  rewrite <- app_assoc. reflexivity.
Qed.

(** A body whose only exits are a normal return and a raise that the
    handler turns into a normal return. *)
Lemma guarded_total (body : M t unit) (handler : exn -> M t unit) :
  (forall e s w, exists s' w', handler e s w = (Ok tt, s', w')) ->
  total (try_except body handler).
Proof.
  intros Hh s w. destruct (body s w) as [[[[]|e] s1] w1] eqn:E.
  - rewrite (try_except_ok _ _ _ _ _ _ _ E). eauto.
  - rewrite (try_except_raise _ _ _ _ _ _ _ E). apply Hh.
Qed.

Lemma screen_iteration_total : total (screen_iteration env).
Proof.
  apply guarded_total. intros e s w. rewrite screen_handler_eq. eauto.
Qed.

Lemma audio_iteration_total : total (audio_iteration env).
Proof.
  apply guarded_total. intros e s w. rewrite audio_handler_eq. eauto.
Qed.

Lemma while_running_step (iteration : M t unit) (fuel : nat) (s : t) (w : World) :
  running s = true ->
  while_running iteration (S fuel) s w
    = (iteration ;; while_running iteration fuel) s w.
Proof. intros H. cbn. unfold bind at 1, gets. rewrite H. reflexivity. Qed.

Lemma while_running_stopped (iteration : M t unit) (fuel : nat) (s : t) (w : World) :
  running s = false -> while_running iteration fuel s w = (Ok Finished, s, w).
Proof. intros H. destruct fuel; cbn; unfold bind, gets; rewrite H; reflexivity. Qed.

(** A loop over a total iteration never raises, and it is left only with
    the running flag false. *)
Lemma while_running_safe (iteration : M t unit) :
  total iteration ->
  forall fuel s w, exists st s' w',
    while_running iteration fuel s w = (Ok st, s', w') /\
    (st = Finished -> running s' = false).
Proof.
  intros Ht fuel. induction fuel as [|n IH]; intros s w.
  - destruct (running s) eqn:R.
    + exists OutOfFuel, s, w. cbn. unfold bind, gets. rewrite R.
      split; [reflexivity | discriminate].
    + exists Finished, s, w. rewrite while_running_stopped by exact R. auto.
  - destruct (running s) eqn:R.
    + rewrite while_running_step by exact R.
      destruct (Ht s w) as (s1 & w1 & E). unfold bind. rewrite E. apply IH.
    + exists Finished, s, w. rewrite while_running_stopped by exact R. auto.
Qed.

(** With the flag true and kept true by the iteration, the loop is never
    left. *)
Lemma while_running_goes_on (iteration : M t unit) :
  total iteration ->
  (forall s w, running s = true -> running (state_of (iteration s w)) = true) ->
  forall fuel s w, running s = true ->
    result_of (while_running iteration fuel s w) = Ok OutOfFuel.
Proof.
  intros Ht Hk fuel. induction fuel as [|n IH]; intros s w R.
  - cbn. unfold bind, gets. rewrite R. reflexivity.
  - rewrite while_running_step by exact R.
    destruct (Ht s w) as (s1 & w1 & E). unfold bind. rewrite E.
    apply IH. specialize (Hk s w R). rewrite E in Hk. exact Hk.
Qed.


Section Undisturbed.
Hypothesis no_stop : forall n, stop_requested env n = false.

Lemma screen_iteration_keeps_running (s : t) (w : World) :
  running (state_of (screen_iteration env s w)) = running s.
Proof.
  unfold screen_iteration, screen_body, screen_handler, sleep, suspend,
    on_gemini, GeminiSession.send_frame.
  unfold_monad. cbn. rewrite ?no_stop.
  destruct (capture_frame env (tick w)); cbn; rewrite ?no_stop; cbn.
  - destruct (GeminiSession.session (gemini s) && GeminiSession.running (gemini s));
      cbn; rewrite ?no_stop; cbn.
    + destruct (send_realtime_input env (S (tick w))); cbn; rewrite ?no_stop;
        cbn; rewrite ?no_stop; reflexivity.
    + reflexivity.
  - reflexivity.
Qed.

Lemma audio_iteration_keeps_running (s : t) (w : World) :
  running (state_of (audio_iteration env s w)) = running s.
Proof.
  unfold audio_iteration, audio_body, audio_handler, sleep, suspend,
    on_audio, on_gemini, GeminiSession.send_audio.
  unfold_monad. cbn -[AudioStream.read_chunk].
  destruct (AudioStream.read_chunk env (audio s) w) as [[[chunk|e] a1] w1];
    cbn; rewrite ?no_stop; cbn; [|reflexivity].
  destruct (nonempty chunk); cbn; [|reflexivity].
  destruct (GeminiSession.session (gemini s) && GeminiSession.running (gemini s));
    cbn; rewrite ?no_stop; cbn; [|reflexivity].
  destruct (send_realtime_input env (S (tick w1))); cbn; rewrite ?no_stop;
    reflexivity.
Qed.

End Undisturbed.

(** C9. Producer failure isolation.  For either producer: every iteration
    of the capture loop returns normally, whatever acquisition, transform
    or send raise; an exception of the iteration's body is reported and
    followed by the pause (1 s for the screen producer, 0.1 s for the
    audio producer), after which the loop tests the flag again; the loop
    itself never raises, goes on to the next iteration while the flag is
    true, is left only with the flag false, and is never left when no stop
    is requested. *)
Theorem producers_isolate_failures (s : t) (w : World) :
  (total (screen_iteration env) /\ total (audio_iteration env)) /\
  (forall e s1 w1, screen_body env s w = (Raise e, s1, w1) ->
     exists s2 w2, screen_iteration env s w = (Ok tt, s2, w2) /\
       trace w2 = (trace w1 ++
         [EvPrint ("Screen error: " ++ str_of_exn e); EvSleep 1])%list) /\
  (forall e s1 w1, audio_body env s w = (Raise e, s1, w1) ->
     exists s2 w2, audio_iteration env s w = (Ok tt, s2, w2) /\
       trace w2 = (trace w1 ++
         [EvPrint ("Audio error: " ++ str_of_exn e); EvSleep (1 # 10)])%list) /\
  (forall fuel,
     (exists st s' w', _screen_loop env fuel s w = (Ok st, s', w') /\
        (st = Finished -> running s' = false)) /\
     (exists st s' w', _audio_loop env fuel s w = (Ok st, s', w') /\
        (st = Finished -> running s' = false))) /\
  (running s = true -> forall fuel,
     _screen_loop env (S fuel) s w
       = (screen_iteration env ;; _screen_loop env fuel) s w /\
     _audio_loop env (S fuel) s w
       = (audio_iteration env ;; _audio_loop env fuel) s w) /\
  (running s = false -> forall fuel,
     _screen_loop env fuel s w = (Ok Finished, s, w) /\
     _audio_loop env fuel s w = (Ok Finished, s, w)) /\
  ((forall n, stop_requested env n = false) -> running s = true ->
   forall fuel,
     result_of (_screen_loop env fuel s w) = Ok OutOfFuel /\
     result_of (_audio_loop env fuel s w) = Ok OutOfFuel).
Proof.
  split; [split; [apply screen_iteration_total | apply audio_iteration_total]|].
  split.
  { intros e s1 w1 E. unfold screen_iteration.
    rewrite (try_except_raise _ _ _ _ _ _ _ E), screen_handler_eq.
    eexists _, _. split; reflexivity. }
  split.
  { intros e s1 w1 E. unfold audio_iteration.
    rewrite (try_except_raise _ _ _ _ _ _ _ E), audio_handler_eq.
    eexists _, _. split; reflexivity. }
  split.
  { intros fuel. split.
    - apply (while_running_safe _ screen_iteration_total).
    - apply (while_running_safe _ audio_iteration_total). }
  split.
  { intros R fuel. split; apply while_running_step; exact R. }
  split.
  { intros R fuel. split; apply while_running_stopped; exact R. }
  intros Hno R fuel. split.
  - apply (while_running_goes_on _ screen_iteration_total); [|exact R].
    intros s0 w0 R0. rewrite (screen_iteration_keeps_running Hno). exact R0.
  - apply (while_running_goes_on _ audio_iteration_total); [|exact R].
    intros s0 w0 R0. rewrite (audio_iteration_keeps_running Hno). exact R0.
Qed.

Lemma set_audio_same (s : t) : set_audio (audio s) s = s.
Proof. destruct s; reflexivity. Qed.

(** C10. Reading before start or after stop gives the empty block: when
    the stream has not been opened or the running flag is false,
    [read_chunk] returns the empty byte string without touching the
    device, and the audio loop's iteration then sends nothing and leaves
    the audio counter as it is.  This is the case of a stream just
    constructed and of a stream after [stop]; and whenever a read gives
    the empty block, the iteration goes no further than its suspension. *)
Theorem read_chunk_idle_is_empty (s : t) (w : World) :
  (AudioStream.stream (audio s) = false \/ AudioStream.running (audio s) = false ->
   AudioStream.read_chunk env (audio s) w = (Ok [], audio s, w) /\
   audio_iteration env s w = (Ok tt, after_suspend env s w, advance w) /\
   audio_chunks_sent (after_suspend env s w) = audio_chunks_sent s /\
   trace (advance w) = trace w) /\
  (forall a1 w1, AudioStream.read_chunk env (audio s) w = (Ok [], a1, w1) ->
     audio_iteration env s w
       = (Ok tt, after_suspend env (set_audio a1 s) w1, advance w1)) /\
  (forall device, AudioStream.read_chunk env (AudioStream.init device) w
     = (Ok [], AudioStream.init device, w)) /\
  (forall a w0, AudioStream.read_chunk env (state_of (AudioStream.stop env a w0)) w
     = (Ok [], state_of (AudioStream.stop env a w0), w)).
Proof.
  split; [|split; [|split]].
  2:{ intros a1 w1 E. unfold audio_iteration, audio_body, on_audio. unfold_monad.
      rewrite E. reflexivity. }
  - intros H. pose proof (read_chunk_idle env (audio s) w H) as E.
    split; [exact E|]. split; [|split].
    + unfold audio_iteration, audio_body, on_audio. unfold_monad.
      rewrite E. cbn. rewrite set_audio_same. reflexivity.
    + unfold after_suspend. destruct (stop_requested env (tick w)); reflexivity.
    + reflexivity.
  - intros device. apply read_chunk_idle. left. reflexivity.
  - intros a w0. apply read_chunk_idle. right. rewrite stop_state. reflexivity.
Qed.

End Producers.

(** ** The response consumer *)

Section ResponseConsumer.
Import Wire GeminiSession.



Lemma truthy_some (o : option string) :
  truthy o = true -> exists s, o = Some s /\ s <> "".
Proof.
  destruct o as [s|]; cbn; [|discriminate].
  intros H. exists s. split; [reflexivity|].
  intros ->. discriminate H.
Qed.

Lemma first_text_spec (ps : list Part) :
  match first_text ps with
  | Some s =>
      s <> "" /\
      exists before p after,
        ps = (before ++ p :: after)%list /\ part_text p = Some s /\ no_text before
  | None => no_text ps
  end.
Proof.
  induction ps as [|p ps IH]; cbn.
  - constructor.
  - destruct (truthy (part_text p)) eqn:E.
    + destruct (truthy_some _ E) as (s & Es & Hs). rewrite Es.
      split; [exact Hs|]. exists [], p, ps.
      split; [reflexivity|]. split; [exact Es | constructor].
    + destruct (first_text ps) as [s|].
      * destruct IH as (Hs & before & q & after & -> & Hq & Hb).
        split; [exact Hs|]. exists (p :: before), q, after.
        split; [reflexivity|]. split; [exact Hq | constructor; assumption].
      * constructor; assumption.
Qed.

(** C2 (as stated, refuted). On an event with both a model-turn text part
    and an output transcription the code takes the transcription, where
    first-match-wins takes the text part. *)
Lemma transcription_overrides_model_turn :
  extract_text turn_and_transcript = Some "I noticed slide three." /\
  first_match_text turn_and_transcript = Some "OBSERVATION: slide 3" /\
  extract_text turn_and_transcript <> first_match_text turn_and_transcript.
Proof. split; [reflexivity|]. split; [reflexivity | discriminate]. Qed.

(** C2 (amended). For every inbound event the consumer extracts the text
    by this precedence: the direct text if present and non-empty; else,
    within the server content, the text of the output transcription when
    the event carries one; else the first non-empty text part of the model
    turn; else nothing.  The field that decides is the only one used, and
    the text is forwarded to the callback exactly when it is non-empty. *)
Theorem extraction_precedence (response : Response) :
  (truthy (text response) = true -> extract_text response = text response) /\
  (truthy (text response) = false ->
   forall sc, server_content response = Some sc ->
     (forall ot, output_transcription sc = Some ot ->
        extract_text response = transcription_text ot) /\
     (output_transcription sc = None ->
      forall mt, model_turn sc = Some mt ->
        extract_text response = first_text (parts mt) /\
        match first_text (parts mt) with
        | Some s =>
            s <> "" /\
            exists before p after,
              parts mt = (before ++ p :: after)%list /\
              part_text p = Some s /\ no_text before
        | None => no_text (parts mt)
        end) /\
     (output_transcription sc = None -> model_turn sc = None ->
        extract_text response = None)) /\
  (truthy (text response) = false -> server_content response = None ->
   extract_text response = None) /\
  (forall (St : Type) (on_response : string -> M St unit),
     (truthy (extract_text response) = false ->
      handle_response St on_response response = ret tt) /\
     (forall s, extract_text response = Some s -> s <> "" ->
      handle_response St on_response response = on_response s)).
Proof.
  unfold extract_text, handle_response.
  split; [intros ->; reflexivity|].
  split.
  { intros -> sc ->. split; [intros ot ->; reflexivity|].
    split.
    - intros -> mt ->. split; [reflexivity | apply first_text_spec].
    - intros -> ->. reflexivity. }
  split; [intros -> ->; reflexivity|].
  intros St on_response. fold (extract_text response). split.
  - destruct (extract_text response) as [s|]; [|reflexivity].
    intros H. rewrite H. reflexivity.
  - intros s -> Hs. cbn.
    destruct (String.eqb_spec s ""); [contradiction | reflexivity].
Qed.

Lemma extraction_precedence_witness :
  truthy (text turn_and_transcript) = false /\
  extract_text turn_and_transcript = Some "I noticed slide three." /\
  extract_text (mkResponse (Some "hello") (server_content turn_and_transcript))
    = Some "hello".
Proof.
  split; [reflexivity|]. split.
  - destruct (proj1 (proj2 (extraction_precedence turn_and_transcript)) eq_refl
                _ eq_refl) as (H & _).
    apply (H _ eq_refl).
  - apply (proj1 (extraction_precedence
                    (mkResponse (Some "hello") (server_content turn_and_transcript)))).
    reflexivity.
Defined.

End ResponseConsumer.

(** ** The producers on concrete sessions *)

(** A screen grab that fails every time: each iteration reports, pauses
    one second and returns; after five of them the loop is still on. *)
Lemma producers_isolate_failures_witness :
  (exists s2 w2,
     WorkshopAttendee.screen_iteration env_capture_fails s_live world0 = (Ok tt, s2, w2) /\
     trace w2 = [EvCaptureFrame; EvPrint "Screen error: screenshot failed"; EvSleep 1]) /\
  (exists s2 w2,
     WorkshopAttendee.audio_iteration env_capture_fails s_live world0 = (Ok tt, s2, w2) /\
     trace w2 = [EvStreamRead 1024; EvPrint "Audio error: Input overflowed";
                 EvSleep (1 # 10)]) /\
  result_of (WorkshopAttendee._screen_loop env_capture_fails 5 s_live world0)
    = Ok OutOfFuel /\
  result_of (WorkshopAttendee._audio_loop env_capture_fails 5 s_live world0)
    = Ok OutOfFuel /\
  WorkshopAttendee._screen_loop env_capture_fails 5 s_fresh world0
    = (Ok Finished, s_fresh, world0).
Proof.
  destruct (producers_isolate_failures env_capture_fails s_live world0)
    as (_ & Hscreen & Haudio & _ & _ & _ & Hon).
  destruct (producers_isolate_failures env_capture_fails s_fresh world0)
    as (_ & _ & _ & _ & _ & Hoff & _).
  split.
  { apply (Hscreen grab_error s_live (mkWorld 1 [EvCaptureFrame])). reflexivity. }
  split.
  { apply (Haudio overflow_error s_live (mkWorld 1 [EvStreamRead 1024])). reflexivity. }
  split; [apply (Hon (fun _ => eq_refl) eq_refl 5%nat)|].
  split; [apply (Hon (fun _ => eq_refl) eq_refl 5%nat)|].
  apply (Hoff eq_refl 5%nat).
Defined.

(** A stream never opened: the read is empty and the iteration sends
    nothing. *)
Lemma read_chunk_idle_is_empty_witness :
  (AudioStream.stream (WorkshopAttendee.audio s_fresh) = false \/
   AudioStream.running (WorkshopAttendee.audio s_fresh) = false) /\
  AudioStream.read_chunk env_ok (WorkshopAttendee.audio s_fresh) world0
    = (Ok [], WorkshopAttendee.audio s_fresh, world0) /\
  WorkshopAttendee.audio_iteration env_ok s_fresh world0
    = (Ok tt, s_fresh, advance world0).
Proof.
  assert (H : AudioStream.stream (WorkshopAttendee.audio s_fresh) = false \/
              AudioStream.running (WorkshopAttendee.audio s_fresh) = false)
    by (left; reflexivity).
  split; [exact H|].
  destruct (proj1 (read_chunk_idle_is_empty env_ok s_fresh world0) H)
    as (H1 & H2 & _).
  split; [exact H1 | exact H2].
Defined.

(** * Further properties *)

(** ** The log sink: responses *)

Section LogResponses.
Variable env : Env.
Import FeedbackLogger.

Lemma append_nil_r (a : string) : (a ++ "")%string = a.
Proof. induction a as [|x a IH]; cbn; [reflexivity | rewrite IH; reflexivity]. Qed.

Lemma log_lines_open (lines : list string) :
  forall (l : t) (w : World),
    file_closed l = false ->
    log_lines env lines l w =
      (Ok tt,
       write (stamped env (tick w) (filter is_nonblank lines)) l,
       mkWorld (List.length (filter is_nonblank lines) + tick w) (trace w)).
Proof.
  induction lines as [|line rest IH]; intros l w Hopen.
  - cbn. unfold ret, write. rewrite append_nil_r. destruct l, w; reflexivity.
  - cbn [log_lines filter]. unfold bind at 1, when. fold (is_nonblank line).
    destruct (is_nonblank line).
    + rewrite log_eq, Hopen. rewrite IH by exact Hopen.
      cbn [stamped List.length]. unfold write, advance.
      cbn [file file_closed response_count tick trace].
      rewrite append_assoc. rewrite <- plus_n_Sm. reflexivity.
    + unfold ret. apply IH. exact Hopen.
Qed.

Lemma log_lines_silent (lines : list string) :
  filter is_nonblank lines = [] ->
  forall (l : t) (w : World), log_lines env lines l w = (Ok tt, l, w).
Proof.
  induction lines as [|line rest IH]; intros Hf l w; [reflexivity|].
  cbn [log_lines filter] in *. unfold bind at 1, when. fold (is_nonblank line) in *.
  destruct (is_nonblank line); [discriminate Hf|].
  unfold ret. apply IH. exact Hf.
Qed.

Lemma log_lines_closed (lines : list string) :
  filter is_nonblank lines <> [] ->
  forall (l : t) (w : World),
    file_closed l = true ->
    log_lines env lines l w = (Raise closed_file_error, l, advance w).
Proof.
  induction lines as [|line rest IH]; intros Hf l w Hc; [contradiction|].
  cbn [log_lines filter] in *. unfold bind at 1, when. fold (is_nonblank line) in *.
  destruct (is_nonblank line).
  - rewrite log_eq, Hc. reflexivity.
  - unfold ret. apply IH; assumption.
Qed.

Lemma log_response_unfold (text : string) (l : t) (w : World) :
  log_response env text l w =
    log_lines env (split_lines (strip text))
      (mk (file l) (file_closed l) (response_count l + 1)) w.
Proof. reflexivity. Qed.

Lemma log_response_open (text : string) (l : t) (w : World) :
  file_closed l = false ->
  log_response env text l w =
    (Ok tt,
     mk (file l ++ stamped env (tick w) (nonblank_lines text)) false
        (response_count l + 1),
     mkWorld (List.length (nonblank_lines text) + tick w) (trace w)).
Proof.
  intros Hopen. rewrite log_response_unfold.
  rewrite log_lines_open by exact Hopen.
  unfold write, nonblank_lines. cbn [file file_closed response_count].
  rewrite Hopen. reflexivity.
Qed.

Lemma log_response_closed (text : string) (l : t) (w : World) :
  file_closed l = true ->
  nonblank_lines text <> [] ->
  log_response env text l w
    = (Raise closed_file_error, mk (file l) true (response_count l + 1), advance w).
Proof.
  intros Hc Hn. rewrite log_response_unfold.
  rewrite log_lines_closed; [rewrite Hc; reflexivity | exact Hn | exact Hc].
Qed.

Lemma log_response_silent (text : string) (l : t) (w : World) :
  nonblank_lines text = [] ->
  log_response env text l w
    = (Ok tt, mk (file l) (file_closed l) (response_count l + 1), w).
Proof.
  intros H. rewrite log_response_unfold. apply log_lines_silent. exact H.
Qed.

(** X1. On an open log, [log_response] returns normally, counts one
    response and appends to what is already written exactly the non-blank
    lines of the stripped text, in order, each as one stamped line; the
    k-th of them carries the clock's k-th reading. *)
Theorem log_response_appends_stamped_lines (text : string) (l : t) (w : World) :
  file_closed l = false ->
  log_response env text l w =
    (Ok tt,
     mk (file l ++ stamped env (tick w) (nonblank_lines text)) false
        (response_count l + 1),
     mkWorld (List.length (nonblank_lines text) + tick w) (trace w)).
Proof.
  intros Hopen. rewrite log_response_unfold.
  rewrite log_lines_open by exact Hopen.
  unfold write, nonblank_lines. cbn [file file_closed response_count].
  rewrite Hopen. reflexivity.
Qed.

Lemma lstrip_all_space (cs : list ascii) :
  Forall (fun c => is_space c = true) cs -> lstrip cs = [].
Proof.
  induction 1 as [|c cs Hc _ IH]; cbn; [reflexivity|].
  rewrite Hc. exact IH.
Qed.

Lemma whitespace_only_no_lines (text : string) :
  whitespace_only text -> nonblank_lines text = [].
Proof.
  intros H. unfold nonblank_lines, strip.
  rewrite (lstrip_all_space _ H). reflexivity.
Qed.

(** X2. A response that is empty or whitespace only is counted but writes
    nothing and reads no clock, and it returns normally even when the log
    file is closed. *)
Theorem blank_response_counted_not_written (text : string) (l : t) (w : World) :
  whitespace_only text ->
  log_response env text l w
    = (Ok tt, mk (file l) (file_closed l) (response_count l + 1), w).
Proof.
  intros H. apply log_response_silent. apply (whitespace_only_no_lines text H).
Qed.

(** X3. On a closed log, a response with at least one non-blank line makes
    [log_response] raise [ValueError]; nothing is written, yet the
    response has been counted. *)
Theorem response_on_closed_log_raises (text : string) (l : t) (w : World) :
  file_closed l = true ->
  nonblank_lines text <> [] ->
  log_response env text l w
    = (Raise closed_file_error, mk (file l) true (response_count l + 1), advance w).
Proof.
  intros Hc Hn. rewrite log_response_unfold.
  rewrite log_lines_closed; [rewrite Hc; reflexivity | exact Hn | exact Hc].
Qed.

(** X4. The log is append-only and a closed log is frozen: whatever
    [_log], [log_response] and [log_stats] are given and however they
    end, what was written before is still there, in front of what they
    add; none of them opens or closes the file; and when the file is
    closed they leave its content as it is. *)
Theorem log_is_append_only (l : t) (w : World)
    (message text : string) (frames : Z) (secs : Q) :
  let preserved (l' : t) :=
    file_closed l' = file_closed l /\
    (exists added, file l' = (file l ++ added)%string) /\
    (file_closed l = true -> file l' = file l) in
  preserved (state_of (_log env message l w)) /\
  preserved (state_of (log_response env text l w)) /\
  preserved (state_of (log_stats env frames secs l w)).
Proof.
  cbn zeta.
  assert (same : forall l', file_closed l' = file_closed l -> file l' = file l ->
            file_closed l' = file_closed l /\
            (exists added, file l' = (file l ++ added)%string) /\
            (file_closed l = true -> file l' = file l)).
  { intros l' H1 H2. split; [exact H1|]. split; [|intros _; exact H2].
    exists "". rewrite append_nil_r. exact H2. }
  assert (grown : forall l' added, file_closed l = false ->
            file_closed l' = false -> file l' = (file l ++ added)%string ->
            file_closed l' = file_closed l /\
            (exists added, file l' = (file l ++ added)%string) /\
            (file_closed l = true -> file l' = file l)).
  { intros l' added H0 H1 H2. split; [congruence|]. split; [eauto|].
    intros H. congruence. }
  destruct (file_closed l) eqn:Hc.
  - split; [|split].
    + rewrite log_eq, Hc. apply same; first [exact Hc | reflexivity].
    + destruct (nonblank_lines text) as [|x xs] eqn:Hn.
      * rewrite log_response_silent by exact Hn.
        apply same; first [exact Hc | reflexivity].
      * rewrite log_response_closed; [|exact Hc|rewrite Hn; discriminate].
        apply same; first [exact Hc | reflexivity].
    + rewrite log_stats_closed by exact Hc.
      apply same; first [exact Hc | reflexivity].
  - split; [|split].
    + rewrite log_eq, Hc. eapply grown; first [exact Hc | reflexivity].
    + rewrite log_response_open by exact Hc.
      eapply grown; first [exact Hc | reflexivity].
    + rewrite log_stats_open by exact Hc.
      eapply grown; first [exact Hc | reflexivity].
Qed.

End LogResponses.

(** ** The microphone: samples and bytes *)

Section Samples.
Import AudioStream.

Lemma byte_val_range (b : Byte.byte) : 0 <= byte_val b < 256.
Proof.
  unfold byte_val. pose proof (Byte.to_N_bounded b). lia.
Qed.

Lemma byte_of_val (b : Byte.byte) : byte_of (byte_val b) = b.
Proof.
  unfold byte_of. pose proof (byte_val_range b) as H.
  rewrite Z.mod_small by exact H. unfold byte_val.
  rewrite N2Z.id, Byte.of_to_N. reflexivity.
Qed.

Lemma byte_val_of (z : Z) : byte_val (byte_of z) = z mod 256.
Proof.
  unfold byte_of, byte_val.
  assert (H : 0 <= z mod 256 < 256) by (apply Z.mod_pos_bound; lia).
  destruct (Byte.of_N (Z.to_N (z mod 256))) as [b|] eqn:E.
  - apply Byte.to_of_N in E. rewrite E. apply Z2N.id. lia.
  - apply Byte.of_N_None_iff in E. lia.
Qed.

Lemma int16_of_range (lo hi : Byte.byte) : int16 (int16_of lo hi).
Proof.
  unfold int16, int16_of. cbn zeta.
  pose proof (byte_val_range lo). pose proof (byte_val_range hi).
  destruct (Z.ltb_spec (byte_val lo + 256 * byte_val hi) 32768); lia.
Qed.

Lemma int16_of_mod (lo hi : Byte.byte) :
  int16_of lo hi mod 65536 = byte_val lo + 256 * byte_val hi.
Proof.
  unfold int16_of. cbn zeta.
  pose proof (byte_val_range lo). pose proof (byte_val_range hi).
  destruct (Z.ltb_spec (byte_val lo + 256 * byte_val hi) 32768).
  - apply Z.mod_small. lia.
  - symmetry. apply (Z.mod_unique _ _ (-1)); lia.
Qed.

Lemma encode_decode (lo hi : Byte.byte) :
  byte_of (int16_of lo hi mod 65536) = lo /\
  byte_of (int16_of lo hi mod 65536 / 256) = hi.
Proof.
  rewrite int16_of_mod.
  pose proof (byte_val_range lo). pose proof (byte_val_range hi).
  assert (Hq : (byte_val lo + 256 * byte_val hi) / 256 = byte_val hi).
  { symmetry. apply (Z.div_unique _ _ _ (byte_val lo)); lia. }
  assert (Hr : (byte_val lo + 256 * byte_val hi) mod 256 = byte_val lo).
  { symmetry. apply (Z.mod_unique _ _ (byte_val hi)); lia. }
  split.
  - rewrite <- (byte_of_val lo) at 2. unfold byte_of.
    rewrite Hr, (Z.mod_small (byte_val lo)) by lia. reflexivity.
  - rewrite Hq. apply byte_of_val.
Qed.

Lemma decode_encode (x : Z) :
  int16 x ->
  int16_of (byte_of (x mod 65536)) (byte_of (x mod 65536 / 256)) = x.
Proof.
  unfold int16. intros Hx. unfold int16_of. cbn zeta.
  rewrite !byte_val_of.
  assert (Hm : 0 <= x mod 65536 < 65536) by (apply Z.mod_pos_bound; lia).
  assert (Hd : 0 <= x mod 65536 / 256 < 256).
  { split; [apply Z.div_pos; lia | apply Z.div_lt_upper_bound; lia]. }
  rewrite (Z.mod_small (x mod 65536 / 256)) by exact Hd.
  assert (E : (x mod 65536) mod 256 + 256 * (x mod 65536 / 256) = x mod 65536).
  { rewrite Z.add_comm. symmetry. apply Z.div_mod. lia. }
  rewrite E.
  assert (Hx' : x mod 65536 = if x <? 0 then x + 65536 else x).
  { symmetry. destruct (Z.ltb_spec x 0).
    - apply (Z.mod_unique _ _ (-1)); lia.
    - apply (Z.mod_unique _ _ 0); lia. }
  rewrite Hx'.
  destruct (Z.ltb_spec x 0);
    match goal with |- context [?u <? 32768] => destruct (Z.ltb_spec u 32768) end;
    lia.
Qed.

Lemma tobytes_frombuffer_pair (data : bytes) :
  (forall samples, frombuffer data = Some samples ->
     tobytes samples = data /\ Forall int16 samples) /\
  (forall b samples, frombuffer (b :: data) = Some samples ->
     tobytes samples = b :: data /\ Forall int16 samples).
Proof.
  induction data as [|x rest [IH1 IH2]]; split.
  - cbn. intros samples H. injection H as <-. split; [reflexivity | constructor].
  - cbn. discriminate.
  - exact (IH2 x).
  - intros b samples. cbn [frombuffer].
    destruct (frombuffer rest) as [xs|] eqn:E; [|discriminate].
    intros H. injection H as <-. destruct (IH1 xs eq_refl) as [Hb Hr].
    cbn [tobytes]. destruct (encode_decode b x) as [-> ->]. rewrite Hb.
    split; [reflexivity|]. constructor; [apply int16_of_range | exact Hr].
Qed.

Lemma frombuffer_tobytes (samples : list Z) :
  Forall int16 samples -> frombuffer (tobytes samples) = Some samples.
Proof.
  induction 1 as [|x xs Hx _ IH]; [reflexivity|].
  cbn [tobytes frombuffer]. rewrite IH, (decode_encode x Hx). reflexivity.
Qed.

(** X5. Bytes and 16-bit samples are two views of the same block: a
    buffer that decodes gives in-range samples that encode back to the
    very same bytes, and in-range samples encode to bytes that decode
    back to them; a buffer with an odd number of bytes does not decode. *)
Theorem samples_bytes_round_trip (data : bytes) (samples : list Z) :
  (frombuffer data = Some samples ->
   tobytes samples = data /\ Forall int16 samples /\
   List.length data = (2 * List.length samples)%nat) /\
  (Forall int16 samples -> frombuffer (tobytes samples) = Some samples) /\
  (Nat.odd (List.length data) = true -> frombuffer data = None).
Proof.
  split; [|split].
  - intros H. destruct (proj1 (tobytes_frombuffer_pair data) samples H) as [H1 H2].
    split; [exact H1|]. split; [exact H2|]. apply frombuffer_length. exact H.
  - apply frombuffer_tobytes.
  - intros Hodd. destruct (frombuffer data) as [xs|] eqn:E; [|reflexivity].
    apply frombuffer_length in E. rewrite E in Hodd.
    rewrite Nat.odd_mul in Hodd. discriminate Hodd.
Qed.

Lemma astype_int16_range (q : Q) : int16 (astype_int16 q).
Proof.
  unfold int16, astype_int16.
  pose proof (Z.mod_pos_bound (truncate q + 32768) 65536). lia.
Qed.

End Samples.

(** ** The microphone: conversion, start and stop *)

Section Microphone.
Variable env : Env.
Import AudioStream.

Lemma to_target_rate_pure (data : bytes) (a : t) (w : World) :
  state_of (to_target_rate env data a w) = a /\
  world_of (to_target_rate env data a w) = w.
Proof.
  unfold to_target_rate. unfold_monad. cbn.
  destruct (differs_from_target (native_rate a)); [|split; reflexivity].
  destruct (frombuffer data) as [samples|]; [|split; reflexivity].
  destruct (native_rate a) as [native|]; [|split; reflexivity].
  destruct (native =? 0); [split; reflexivity|].
  destruct (resample env samples _); split; reflexivity.
Qed.

(** X6. On the resampling path the block returned is well-formed 16-bit
    PCM: whatever samples the resampler returns, the output is twice as
    many bytes, and it decodes to those samples, each truncated and
    reduced to the 16-bit range.  A device block with an odd number of
    bytes raises [ValueError], and an error of the resampler is passed
    on; in no case is the stream object or the device touched. *)
Theorem converted_block_is_well_formed
    (a : t) (w : World) (data : bytes) (native : Z) :
  native_rate a = Some native -> native <> TARGET_RATE -> native <> 0 ->
  (forall samples ys,
     frombuffer data = Some samples ->
     resample env samples (num_samples (Z.of_nat (List.length samples)) native) = Ok ys ->
     exists out,
       to_target_rate env data a w = (Ok out, a, w) /\
       frombuffer out = Some (map astype_int16 ys) /\
       Forall int16 (map astype_int16 ys) /\
       List.length out = (2 * List.length ys)%nat) /\
  (forall samples e,
     frombuffer data = Some samples ->
     resample env samples (num_samples (Z.of_nat (List.length samples)) native) = Raise e ->
     to_target_rate env data a w = (Raise e, a, w)) /\
  (Nat.odd (List.length data) = true ->
   to_target_rate env data a w = (Raise odd_buffer_error, a, w)).
Proof.
  intros Hn Hne H0.
  apply Z.eqb_neq in Hne. apply Z.eqb_neq in H0.
  assert (step : forall samples, frombuffer data = Some samples ->
            to_target_rate env data a w =
              match resample env samples
                      (num_samples (Z.of_nat (List.length samples)) native) with
              | Ok ys => (Ok (tobytes (map astype_int16 ys)), a, w)
              | Raise e => (Raise e, a, w)
              end).
  { intros samples Hb. unfold to_target_rate. unfold_monad. cbn.
    rewrite Hn. cbn. rewrite Hne. cbn. rewrite Hb, H0.
    destruct (resample env samples _); reflexivity. }
  split; [|split].
  - intros samples ys Hb Hr. exists (tobytes (map astype_int16 ys)).
    assert (Hrange : Forall int16 (map astype_int16 ys)).
    { apply Forall_forall. intros x Hx. apply in_map_iff in Hx.
      destruct Hx as (q & <- & _). apply astype_int16_range. }
    rewrite (step samples Hb), Hr.
    split; [reflexivity|]. split; [apply frombuffer_tobytes; exact Hrange|].
    split; [exact Hrange|]. rewrite tobytes_length, length_map. reflexivity.
  - intros samples e Hb Hr. rewrite (step samples Hb), Hr. reflexivity.
  - intros Hodd.
    assert (Hb : frombuffer data = None).
    { destruct (frombuffer data) as [xs|] eqn:E; [|reflexivity].
      apply frombuffer_length in E. rewrite E, Nat.odd_mul in Hodd.
      discriminate Hodd. }
    unfold to_target_rate. unfold_monad. cbn.
    rewrite Hn. cbn. rewrite Hne. cbn. rewrite Hb. reflexivity.
Qed.

(** What [try_rates] leaves behind, by induction on the rates to try. *)
Lemma try_rates_post (rates : list Z) :
  forall (a : t) (w : World),
    let out := try_rates env rates a w in
    device_index (state_of out) = device_index a /\
    (result_of out = Ok tt ->
     stream (state_of out) = true /\ running (state_of out) = true /\
     exists r tr, In r rates /\ native_rate (state_of out) = Some r /\
                  trace (world_of out) = (tr ++ [EvOpen r])%list) /\
    (forall e, result_of out = Raise e ->
     stream (state_of out) = stream a /\ running (state_of out) = running a).
Proof.
  induction rates as [|rate rest IH]; intros a w; cbn zeta.
  - cbn. split; [reflexivity|]. split; [discriminate|]. intros e _. split; reflexivity.
  - cbn [try_rates]. unfold open_stream. unfold_monad. cbn.
    destruct (pa_open env rate (tick w)) as [[]|e1] eqn:E1; cbn.
    + split; [reflexivity|]. split; [|discriminate].
      intros _. split; [reflexivity|]. split; [reflexivity|].
      exists rate, (trace w). split; [left; reflexivity|]. split; reflexivity.
    + destruct (is_OSError e1).
      * specialize (IH (set_native_rate rate a)
                       (mkWorld (S (tick w)) (trace w ++ [EvOpen rate]))).
        cbn zeta in IH. unfold result_of, state_of, world_of in IH.
        destruct IH as (Hd & Hok & Herr). split; [exact Hd|]. split.
        -- intros H. destruct (Hok H) as (Hs & Hr & r & tr & Hin & Hn & Ht).
           split; [exact Hs|]. split; [exact Hr|].
           exists r, tr. split; [right; exact Hin|]. split; assumption.
        -- intros e H. apply (Herr e H).
      * cbn. split; [reflexivity|]. split; [discriminate|].
        intros e _. split; reflexivity.
Qed.

Lemma start_default_eq (a : t) (w : World) :
  device_index a = None ->
  start env a w = try_rates env [48000; 44100; 16000] a w.
Proof.
  intros Hd. unfold start. unfold bind at 1, gets at 1. rewrite Hd. reflexivity.
Qed.

Lemma start_explicit_eq (a : t) (w : World) (i : Z) :
  device_index a = Some i ->
  start env a w =
    match device_rate env (tick w) with
    | Raise e => (Raise e, a, after_event (EvDeviceInfo i) w)
    | Ok r =>
        match pa_open env r (S (tick w)) with
        | Raise e =>
            (Raise e, set_native_rate r a,
             after_event (EvOpen r) (after_event (EvDeviceInfo i) w))
        | Ok _ =>
            (Ok tt, mk (Some i) true true (Some r),
             after_event (EvOpen r) (after_event (EvDeviceInfo i) w))
        end
    end.
Proof.
  intros Hd. unfold start. unfold bind at 1, gets at 1. rewrite Hd.
  unfold open_stream, after_event. unfold_monad. cbn.
  destruct (device_rate env (tick w)) as [r|e0]; cbn; [|reflexivity].
  destruct (pa_open env r (S (tick w))) as [[]|e1]; cbn; [|reflexivity].
  destruct a as [d st rn nr]. cbn in *. subst d. reflexivity.
Qed.

(** X7. A [start] that returns has opened the stream at the rate it
    recorded: the stream is set, the running flag is true, and
    [native_rate] is the rate of the last [pa.open], one of 48000, 44100,
    16000 on the default device.  A [start] that raises leaves the stream
    and the running flag as they were.  The device index never changes. *)
Theorem start_opens_at_recorded_rate (a : t) (w : World) :
  let out := start env a w in
  device_index (state_of out) = device_index a /\
  (result_of out = Ok tt ->
   stream (state_of out) = true /\ running (state_of out) = true /\
   exists r tr, native_rate (state_of out) = Some r /\
                trace (world_of out) = (tr ++ [EvOpen r])%list /\
                (device_index a = None -> In r candidate_rates)) /\
  (forall e, result_of out = Raise e ->
   stream (state_of out) = stream a /\ running (state_of out) = running a).
Proof.
  cbn zeta. destruct (device_index a) as [i|] eqn:Hd.
  - rewrite (start_explicit_eq a w i Hd).
    destruct (device_rate env (tick w)) as [r|e0].
    + destruct (pa_open env r (S (tick w))) as [[]|e1]; cbn.
      * split; [reflexivity|]. split; [|discriminate]. intros _.
        split; [reflexivity|]. split; [reflexivity|].
        exists r, (trace w ++ [EvDeviceInfo i])%list.
        split; [reflexivity|]. split; [reflexivity | discriminate].
      * split; [exact Hd|]. split; [discriminate|]. intros e _. split; reflexivity.
    + cbn. split; [exact Hd|]. split; [discriminate|]. intros e _. split; reflexivity.
  - rewrite (start_default_eq a w Hd).
    destruct (try_rates_post [48000; 44100; 16000] a w) as (H1 & H2 & H3).
    split; [rewrite H1; exact Hd|]. split; [|exact H3].
    intros H. destruct (H2 H) as (Hs & Hr & r & tr & Hin & Hn & Ht).
    split; [exact Hs|]. split; [exact Hr|]. exists r, tr.
    split; [exact Hn|]. split; [exact Ht|]. intros _. exact Hin.
Qed.

(** X8. On the default device [start] tries 48000, 44100 and 16000 Hz in
    this order and keeps the first rate that opens; an [OSError] moves on
    to the next rate, any other exception leaves [start] at once; when all
    three fail with [OSError], [start] raises [OSError], nothing is
    opened, and [native_rate] is left at 16000. *)
Theorem start_default_device_falls_back (a : t) (w : World) :
  device_index a = None ->
  let n := tick w in
  let opened r evs :=
    (Ok tt, mk None true true (Some r), mkWorld (List.length evs + n) (trace w ++ evs)) in
  let failed e r evs :=
    (Raise e, mk None (stream a) (running a) (Some r),
     mkWorld (List.length evs + n) (trace w ++ evs)) in
  (pa_open env 48000 n = Ok tt ->
   start env a w = opened 48000 [EvOpen 48000]) /\
  (forall e1, pa_open env 48000 n = Raise e1 -> is_OSError e1 = false ->
   start env a w = failed e1 48000 [EvOpen 48000]) /\
  (forall e1, pa_open env 48000 n = Raise e1 -> is_OSError e1 = true ->
   (pa_open env 44100 (S n) = Ok tt ->
    start env a w = opened 44100 [EvOpen 48000; EvOpen 44100]) /\
   (forall e2, pa_open env 44100 (S n) = Raise e2 -> is_OSError e2 = false ->
    start env a w = failed e2 44100 [EvOpen 48000; EvOpen 44100]) /\
   (forall e2, pa_open env 44100 (S n) = Raise e2 -> is_OSError e2 = true ->
    (pa_open env 16000 (S (S n)) = Ok tt ->
     start env a w = opened 16000 [EvOpen 48000; EvOpen 44100; EvOpen 16000]) /\
    (forall e3, pa_open env 16000 (S (S n)) = Raise e3 ->
     start env a w =
       failed (if is_OSError e3 then no_rate_error else e3) 16000
         [EvOpen 48000; EvOpen 44100; EvOpen 16000]))).
Proof.
  intros Hd. cbn zeta.
  rewrite (start_default_eq a w Hd). destruct a as [d st rn nr].
  cbn in Hd. subst d. destruct w as [n tr]. cbn [tick trace].
  cbn [try_rates]. unfold open_stream. unfold_monad. cbn.
  split; [intros ->; reflexivity|].
  split; [intros e1 -> ->; reflexivity|].
  intros e1 -> ->. cbn.
  split; [intros ->; cbn; rewrite <- ?app_assoc; reflexivity|].
  split; [intros e2 -> ->; cbn; rewrite <- ?app_assoc; reflexivity|].
  intros e2 -> ->. cbn.
  split; [intros ->; cbn; rewrite <- ?app_assoc; reflexivity|].
  intros e3 ->. destruct (is_OSError e3); cbn; rewrite <- ?app_assoc; reflexivity.
Qed.

(** X9. With an explicit device [start] asks the device for its rate and
    opens at that rate only: when the device lookup raises nothing is
    opened and the object is unchanged; when the open raises (an
    [OSError] too) no other rate is tried and the stream stays unopened
    with the device's rate recorded. *)
Theorem start_explicit_device_no_fallback (a : t) (w : World) (i : Z) :
  device_index a = Some i ->
  let n := tick w in
  (forall e, device_rate env n = Raise e ->
   start env a w = (Raise e, a, after_event (EvDeviceInfo i) w)) /\
  (forall r e, device_rate env n = Ok r -> pa_open env r (S n) = Raise e ->
   start env a w =
     (Raise e, set_native_rate r a,
      after_event (EvOpen r) (after_event (EvDeviceInfo i) w))) /\
  (forall r, device_rate env n = Ok r -> pa_open env r (S n) = Ok tt ->
   start env a w =
     (Ok tt, mk (Some i) true true (Some r),
      after_event (EvOpen r) (after_event (EvDeviceInfo i) w))).
Proof.
  intros Hd. cbn zeta. rewrite (start_explicit_eq a w i Hd).
  split; [intros e ->; reflexivity|].
  split; [intros r e -> ->; reflexivity|].
  intros r -> ->. reflexivity.
Qed.

(** X10. [stop] releases in the order [stop_stream], [close],
    [terminate] and gives up at the first call that raises, so that a
    failing [stop_stream] or [close] leaves PyAudio unterminated; with no
    stream only [terminate] is called.  [stop] never resets the stream
    handle: whatever happens, the object afterwards is the one before with
    the running flag false. *)
Theorem stop_releases_in_order (a : t) (w : World) :
  let n := tick w in
  state_of (stop env a w) = set_running false a /\
  (stream a = false ->
   stop env a w
     = (pa_terminate env n, set_running false a, after_event EvTerminate w)) /\
  (stream a = true ->
   (forall e, stop_stream env n = Raise e ->
    stop env a w = (Raise e, set_running false a, after_event EvStopStream w)) /\
   (forall e, stop_stream env n = Ok tt -> stream_close env (S n) = Raise e ->
    stop env a w
      = (Raise e, set_running false a,
         after_event EvCloseStream (after_event EvStopStream w))) /\
   (stop_stream env n = Ok tt -> stream_close env (S n) = Ok tt ->
    stop env a w
      = (pa_terminate env (S (S n)), set_running false a,
         after_event EvTerminate
           (after_event EvCloseStream (after_event EvStopStream w))))).
Proof.
  cbn zeta. split; [apply stop_state|].
  unfold stop, after_event. unfold_monad. cbn.
  split.
  - intros ->. cbn. destruct (pa_terminate env (tick w)); reflexivity.
  - intros ->. cbn.
    split; [intros e ->; reflexivity|].
    split; [intros e -> ->; reflexivity|].
    intros -> ->. cbn. destruct (pa_terminate env (S (S (tick w)))); reflexivity.
Qed.

Lemma start_ok_running (a : t) (w : World) :
  result_of (start env a w) = Ok tt ->
  stream (state_of (start env a w)) = true /\
  running (state_of (start env a w)) = true.
Proof.
  destruct (device_index a) as [i|] eqn:Hd.
  - rewrite (start_explicit_eq a w i Hd).
    destruct (device_rate env (tick w)) as [r|e0]; [|discriminate].
    destruct (pa_open env r (S (tick w))) as [[]|e1]; [|discriminate].
    intros _. split; reflexivity.
  - rewrite (start_default_eq a w Hd). intros H.
    destruct (try_rates_post [48000; 44100; 16000] a w) as (_ & H2 & _).
    destruct (H2 H) as (Hs & Hr & _). split; assumption.
Qed.

(** X11. After a [start] that returned, [read_chunk] does read the
    device: exactly one blocking read of [CHUNK] frames, whose error, if
    any, is the error of [read_chunk]; the stream object is not
    changed by the read. *)
Theorem read_after_start_reads_device (a : t) (w : World) :
  result_of (start env a w) = Ok tt ->
  let a1 := state_of (start env a w) in
  let w1 := world_of (start env a w) in
  state_of (read_chunk env a1 w1) = a1 /\
  world_of (read_chunk env a1 w1) = after_event (EvStreamRead CHUNK) w1 /\
  (forall e, stream_read env (tick w1) = Raise e ->
   result_of (read_chunk env a1 w1) = Raise e) /\
  (forall data, stream_read env (tick w1) = Ok data ->
   result_of (read_chunk env a1 w1) = result_of (to_target_rate env data a1 w1)).
Proof.
  intros H. cbn zeta. destruct (start_ok_running a w H) as [Hs Hr].
  rewrite (read_chunk_open env _ _ Hs Hr). unfold after_event.
  destruct (stream_read env (tick (world_of (start env a w)))) as [data|e].
  - destruct (to_target_rate_pure data (state_of (start env a w))
                (mkWorld (S (tick (world_of (start env a w))))
                   (trace (world_of (start env a w)) ++ [EvStreamRead CHUNK])))
      as [H1 H2].
    split; [exact H1|]. split; [exact H2|]. split; [discriminate|].
    intros d Hd. injection Hd as <-.
    unfold to_target_rate. unfold_monad. cbn.
    destruct (differs_from_target _); [|reflexivity].
    destruct (frombuffer data); [|reflexivity].
    destruct (native_rate _) as [native|]; [|reflexivity].
    destruct (native =? 0); [reflexivity|].
    destruct (resample env _ _); reflexivity.
  - split; [reflexivity|]. split; [reflexivity|].
    split; [intros e' He; injection He as <-; reflexivity | discriminate].
Qed.

End Microphone.

(** ** The length of a resampled block *)

Section ResampledLength.
Variable env : Env.
Import AudioStream.

(** C6 (amended). Length of the resampled block.  For a block of 16-bit
    samples and a positive native rate other than the target rate, the
    conversion asks the resampler for
    [floor(input_length * target_rate / native_rate)] samples, a number
    within 1 of [round(input_length * target_rate / native_rate)].  When
    the resampler returns that many samples, the bytes returned are
    exactly that many 16-bit samples, two bytes each.  Nothing guards a
    request for 0 samples or an empty input: the resampler is called all
    the same, its error is the error of the conversion, and the output is
    empty only if the resampler itself returns no samples. *)
Theorem resampled_length_within_one
    (a : t) (w : World) (data : bytes) (samples : list Z) (native : Z) :
  native_rate a = Some native -> 0 < native -> native <> TARGET_RATE ->
  frombuffer data = Some samples ->
  let input_length := Z.of_nat (List.length samples) in
  let num := num_samples input_length native in
  let rounded := round_half_even (input_length * TARGET_RATE # Z.to_pos native) in
  0 <= num /\ Z.abs (num - rounded) <= 1 /\
  (data = [] -> num = 0) /\
  (forall ys, resample env samples num = Ok ys -> Z.of_nat (List.length ys) = num ->
     exists out out_samples,
       to_target_rate env data a w = (Ok out, a, w) /\
       Z.of_nat (List.length out) = 2 * num /\
       frombuffer out = Some out_samples /\
       Z.abs (Z.of_nat (List.length out_samples) - rounded) <= 1) /\
  (forall e, resample env samples num = Raise e ->
     to_target_rate env data a w = (Raise e, a, w)) /\
  (num = 0 ->
   to_target_rate env data a w =
     match resample env samples 0 with
     | Ok ys => (Ok (tobytes (map astype_int16 ys)), a, w)
     | Raise e => (Raise e, a, w)
     end).
Proof.
  intros Hn Hpos Hne Hbuf input_length num rounded.
  assert (Hlen : 0 <= input_length) by (unfold input_length; lia).
  assert (Hfloor : num = (input_length * TARGET_RATE) / native)
    by (apply num_samples_floor; assumption).
  assert (Hnum : 0 <= num).
  { rewrite Hfloor. apply Z.div_pos; unfold TARGET_RATE; lia. }
  assert (Hround : Z.abs (num - rounded) <= 1).
  { unfold rounded.
    destruct (round_half_even_cases (input_length * TARGET_RATE # Z.to_pos native))
      as [E | E]; rewrite E; cbn [Qnum Qden]; rewrite Z2Pos.id by lia;
      rewrite <- Hfloor; lia. }
  assert (step : to_target_rate env data a w =
            match resample env samples num with
            | Ok ys => (Ok (tobytes (map astype_int16 ys)), a, w)
            | Raise e => (Raise e, a, w)
            end).
  { apply Z.eqb_neq in Hne.
    assert (E0 : (native =? 0) = false) by (apply Z.eqb_neq; lia).
    unfold to_target_rate. unfold_monad. cbn.
    rewrite Hn. cbn. rewrite Hne. cbn. rewrite Hbuf, E0.
    fold input_length. fold num.
    destruct (resample env samples num); reflexivity. }
  split; [exact Hnum|]. split; [exact Hround|]. split.
  { intros ->. cbn in Hbuf. injection Hbuf as <-. reflexivity. }
  split; [|split].
  - intros ys Hr Hys. exists (tobytes (map astype_int16 ys)), (map astype_int16 ys).
    rewrite step, Hr. split; [reflexivity|]. split.
    { rewrite tobytes_length, length_map. lia. }
    split.
    { apply frombuffer_tobytes. apply Forall_forall. intros x Hx.
      apply in_map_iff in Hx. destruct Hx as (q & <- & _).
      apply astype_int16_range. }
    rewrite length_map, Hys. exact Hround.
  - intros e Hr. rewrite step, Hr. reflexivity.
  - intros H0. rewrite step, H0. reflexivity.
Qed.

End ResampledLength.

(** C6 (as stated, refuted). A block of two samples from a 48 kHz device
    asks for [floor(2 * 16000 / 48000) = 0] samples; with a resampler
    that rejects such a request, as [scipy.signal.resample] does, the
    conversion raises [ValueError] where the claim has it return the
    empty block, and so does it on the empty input. *)
Lemma zero_length_request_raises :
  AudioStream.frombuffer block0 = Some [1; 2] /\
  AudioStream.num_samples 2 48000 = 0 /\
  AudioStream.to_target_rate env_ok block0 a48 world0
    = (Raise zero_points_error, a48, world0) /\
  result_of (AudioStream.read_chunk env_ok a48 world0) = Raise zero_points_error /\
  AudioStream.to_target_rate env_ok [] a48 world0
    = (Raise zero_points_error, a48, world0).
Proof. repeat (split; [reflexivity|]). reflexivity. Qed.

(** An 8 kHz device and a block of two samples: 4 samples are asked for
    and 8 bytes come back. *)
Lemma resampled_length_within_one_witness :
  exists out out_samples,
    AudioStream.to_target_rate env_ok block0 a8 world0 = (Ok out, a8, world0) /\
    Z.of_nat (List.length out) = 8 /\
    AudioStream.frombuffer out = Some out_samples /\
    Z.abs (Z.of_nat (List.length out_samples) - 4) <= 1.
Proof.
  assert (Hpos : 0 < 8000) by lia.
  assert (Hne : 8000 <> AudioStream.TARGET_RATE) by (vm_compute; discriminate).
  destruct (resampled_length_within_one env_ok a8 world0 block0 [1; 2] 8000
              eq_refl Hpos Hne eq_refl) as (_ & _ & _ & H & _).
  destruct (H (repeat (inject_Z 1) 4) eq_refl eq_refl)
    as (out & out_samples & H1 & H2 & H3 & H4).
  exists out, out_samples.
  split; [exact H1|]. split; [exact H2|]. split; [exact H3 | exact H4].
Defined.

(** ** The session link: connecting and listening *)

Section Link.
Variable env : Env.
Import GeminiSession.

Lemma connect_eq (g : t) (w : World) :
  connect env g w =
    match aenter env (tick w) with
    | Ok _ => (Ok tt, mk true true true, after_event EvAenter w)
    | Raise e => (Raise e, set_session_ctx true g, after_event EvAenter w)
    end.
Proof.
  unfold connect, after_event. unfold_monad. cbn.
  destruct (aenter env (tick w)) as [[]|e]; reflexivity.
Qed.

(** X12. After a [connect] that returned, the link is connected and every
    media unit is forwarded exactly once, tagged with its MIME type
    ("image/jpeg" for a frame, "audio/pcm" for a chunk); the channel's
    outcome, an exception included, is the outcome of the send, and the
    link is the same after the send. *)
Theorem connected_link_forwards_tagged_media
    (g : t) (w : World) (base64_jpeg : string) (pcm_data : bytes) :
  aenter env (tick w) = Ok tt ->
  let g1 := state_of (connect env g w) in
  let w1 := world_of (connect env g w) in
  connect env g w = (Ok tt, mk true true true, after_event EvAenter w) /\
  send_frame env base64_jpeg g1 w1
    = (send_realtime_input env (tick w1), g1,
       after_event (EvSendText "image/jpeg" base64_jpeg) w1) /\
  send_audio env pcm_data g1 w1
    = (send_realtime_input env (tick w1), g1,
       after_event (EvSendBytes "audio/pcm" pcm_data) w1).
Proof.
  intros H. cbn zeta. rewrite connect_eq, H.
  split; [reflexivity|]. split; reflexivity.
Qed.

(** X13. A [connect] whose channel cannot be entered raises that error
    and leaves [session] and [running] as they were, with the context
    recorded.  On a fresh link this means: every later send is a no-op,
    and [disconnect] still calls [__aexit__] on the context that was
    never entered, swallowing whatever it raises. *)
Theorem failed_connect_leaves_link_unconnected
    (g : t) (w : World) (e : exn) (base64_jpeg : string) :
  aenter env (tick w) = Raise e ->
  let w1 := after_event EvAenter w in
  connect env g w = (Raise e, set_session_ctx true g, w1) /\
  connect env init w = (Raise e, mk false true false, w1) /\
  send_frame env base64_jpeg (mk false true false) w1
    = (Ok tt, mk false true false, w1) /\
  disconnect env (mk false true false) w1
    = (Ok tt, mk false true false, after_event EvAexit w1).
Proof.
  intros H. cbn zeta. rewrite !connect_eq, H.
  split; [reflexivity|]. split; [reflexivity|]. split; [reflexivity|].
  unfold disconnect, after_event. unfold_monad. cbn.
  destruct (aexit env (S (tick w))) as [[]|e']; reflexivity.
Qed.

Section Listening.
Variable St : Type.
Variable get : St -> t.
Variable on_response : string -> M St unit.

Lemma listen_eq (fuel : nat) (s : St) (w : World) :
  listen_for_responses env St get on_response fuel s w =
    if session (get s) then
      match receive_loop env St on_response fuel s w with
      | (Ok st, s1, w1) => (Ok st, s1, w1)
      | (Raise e, s1, w1) => (Ok Finished, s1, after_report (running (get s1)) e w1)
      end
    else (Ok Finished, s, after_report (running (get s)) no_session_error w).
Proof.
  unfold listen_for_responses, after_report. unfold_monad. cbn.
  destruct (session (get s)).
  - destruct (receive_loop env St on_response fuel s w) as [[[st|e] s1] w1];
      [reflexivity|].
    destruct (running (get s1)); reflexivity.
  - cbn. destruct (running (get s)); reflexivity.
Qed.

(** X14. The response listener never raises, whatever the stream and the
    callback do: an exception of [receive] or of the callback ends the
    listening, and it is reported on the console only if the link's
    running flag is still true at that moment, silently dropped
    otherwise.  Listening on a link with no session ends at once, without
    a single [receive]. *)
Theorem listener_never_raises (fuel : nat) (s : St) (w : World) :
  (exists st s1 w1,
     listen_for_responses env St get on_response fuel s w = (Ok st, s1, w1)) /\
  (session (get s) = true ->
   forall e s1 w1, receive_loop env St on_response fuel s w = (Raise e, s1, w1) ->
     listen_for_responses env St get on_response fuel s w
       = (Ok Finished, s1, after_report (running (get s1)) e w1)) /\
  (session (get s) = true ->
   forall st s1 w1, receive_loop env St on_response fuel s w = (Ok st, s1, w1) ->
     listen_for_responses env St get on_response fuel s w = (Ok st, s1, w1)) /\
  (session (get s) = false ->
   listen_for_responses env St get on_response fuel s w
     = (Ok Finished, s, after_report (running (get s)) no_session_error w)).
Proof.
  rewrite listen_eq. split; [|split; [|split]].
  - destruct (session (get s)); [|eauto].
    destruct (receive_loop env St on_response fuel s w) as [[[st|e] s1] w1]; eauto.
  - intros -> e s1 w1 ->. reflexivity.
  - intros -> st s1 w1 ->. reflexivity.
  - intros ->. reflexivity.
Qed.

Lemma receive_loop_step (fuel : nat) (s : St) (w : World) :
  receive_loop env St on_response (S fuel) s w =
    match receive env (tick w) with
    | Raise e => (Raise e, s, after_event EvReceive w)
    | Ok None => (Ok Finished, s, after_event EvReceive w)
    | Ok (Some response) =>
        (handle_response St on_response response ;;
         receive_loop env St on_response fuel) s (after_event EvReceive w)
    end.
Proof.
  cbn [receive_loop]. unfold after_event. unfold_monad.
  destruct (receive env (tick w)) as [[r|]|e]; reflexivity.
Qed.

(** One turn of the listener: the callback gets the extracted text of an
    event before the next event is asked for; an event that makes the
    callback raise is the last one received. *)
Lemma listener_forwards_then_receives
    (fuel : nat) (s : St) (w : World) (response : Wire.Response) :
  receive env (tick w) = Ok (Some response) ->
  let w1 := after_event EvReceive w in
  (truthy (extract_text response) = false ->
   receive_loop env St on_response (S fuel) s w
     = receive_loop env St on_response fuel s w1) /\
  (forall text, extract_text response = Some text -> text <> "" ->
   (forall s2 w2, on_response text s w1 = (Ok tt, s2, w2) ->
      receive_loop env St on_response (S fuel) s w
        = receive_loop env St on_response fuel s2 w2) /\
   (forall e s2 w2, on_response text s w1 = (Raise e, s2, w2) ->
      receive_loop env St on_response (S fuel) s w = (Raise e, s2, w2))).
Proof.
  intros H. cbn zeta. rewrite receive_loop_step, H. unfold handle_response.
  split.
  - intros Ht. destruct (extract_text response) as [text|]; [|reflexivity].
    rewrite Ht. reflexivity.
  - intros text -> Hne.
    assert (E : truthy (Some text) = true).
    { cbn. destruct (String.eqb_spec text ""); [contradiction | reflexivity]. }
    rewrite E. unfold when, bind.
    split; [intros s2 w2 ->; reflexivity | intros e s2 w2 ->; reflexivity].
Qed.

End Listening.

End Link.

(** ** The orchestrator: counters *)

Section Counters.
Variable env : Env.
Import WorkshopAttendee.

Lemma read_chunk_state (a : AudioStream.t) (w : World) :
  state_of (AudioStream.read_chunk env a w) = a.
Proof.
  unfold AudioStream.read_chunk. unfold_monad. cbn.
  destruct (negb (AudioStream.stream a) || negb (AudioStream.running a));
    [reflexivity|].
  destruct (stream_read env (tick w)) as [data|e]; [|reflexivity].
  apply (to_target_rate_pure env data a).
Qed.

(** X15. The screen producer counts a frame exactly when its capture and
    its send both returned, also when the link was not connected and the
    send did nothing.  An iteration captures once and sends at most once;
    it pauses 0.4 s after a frame it counted and 1 s after a failure,
    which it reports and does not count. *)
Theorem screen_iteration_effect (s : t) (w : World) :
  let out := screen_iteration env s w in
  let connected :=
    GeminiSession.session (gemini s) && GeminiSession.running (gemini s) in
  (forall e, capture_frame env (tick w) = Raise e ->
     frames_sent (state_of out) = frames_sent s /\
     trace (world_of out) =
       (trace w ++ [EvCaptureFrame; EvPrint ("Screen error: " ++ str_of_exn e);
                    EvSleep 1])%list) /\
  (forall frame, capture_frame env (tick w) = Ok frame ->
     (connected = false ->
      frames_sent (state_of out) = frames_sent s + 1 /\
      trace (world_of out) = (trace w ++ [EvCaptureFrame; EvSleep (4 # 10)])%list) /\
     (connected = true -> send_realtime_input env (S (tick w)) = Ok tt ->
      frames_sent (state_of out) = frames_sent s + 1 /\
      trace (world_of out) =
        (trace w ++ [EvCaptureFrame; EvSendText "image/jpeg" frame;
                     EvSleep (4 # 10)])%list) /\
     (connected = true ->
      forall e, send_realtime_input env (S (tick w)) = Raise e ->
      frames_sent (state_of out) = frames_sent s /\
      trace (world_of out) =
        (trace w ++ [EvCaptureFrame; EvSendText "image/jpeg" frame;
                     EvPrint ("Screen error: " ++ str_of_exn e); EvSleep 1])%list)).
Proof.
  cbn zeta.
  unfold screen_iteration, screen_body, screen_handler, sleep, suspend,
    on_gemini, GeminiSession.send_frame, FRAME_INTERVAL.
  unfold_monad. cbn.
  split.
  - intros e ->. cbn. rewrite <- !app_assoc. case_stop_requests; split; reflexivity.
  - intros frame ->. cbn. split; [|split].
    + intros ->. cbn. rewrite <- !app_assoc.
      case_stop_requests; split; reflexivity.
    + intros -> Hs. cbn. rewrite Hs. cbn. rewrite <- !app_assoc.
      case_stop_requests; split; reflexivity.
    + intros -> e Hs. cbn. rewrite Hs. cbn. rewrite <- !app_assoc.
      case_stop_requests; split; reflexivity.
Qed.


Lemma screen_iteration_frame (s : t) (w : World) :
  let s' := state_of (screen_iteration env s w) in
  logger s' = logger s /\ audio s' = audio s /\ gemini s' = gemini s /\
  audio_chunks_sent s' = audio_chunks_sent s /\
  frames_sent s <= frames_sent s' <= frames_sent s + 1 /\
  (running s = false -> running s' = false).
Proof.
  cbn zeta.
  unfold screen_iteration, screen_body, screen_handler, sleep, suspend,
    on_gemini, GeminiSession.send_frame.
  unfold_monad. cbn.
  destruct (capture_frame env (tick w)); cbn.
  - destruct (GeminiSession.session (gemini s) && GeminiSession.running (gemini s));
      cbn.
    + destruct (send_realtime_input env (S (tick w))); cbn;
        case_stop_requests; cbn; repeat split; auto; lia.
    + case_stop_requests; cbn; repeat split; auto; lia.
  - case_stop_requests; cbn; repeat split; auto; lia.
Qed.

Lemma audio_iteration_frame (s : t) (w : World) :
  let s' := state_of (audio_iteration env s w) in
  logger s' = logger s /\ audio s' = audio s /\ gemini s' = gemini s /\
  frames_sent s' = frames_sent s /\
  audio_chunks_sent s <= audio_chunks_sent s' <= audio_chunks_sent s + 1 /\
  (running s = false -> running s' = false).
Proof.
  cbn zeta. pose proof (read_chunk_state (audio s) w) as Hst.
  unfold audio_iteration, audio_body, audio_handler, sleep, suspend,
    on_audio, on_gemini, GeminiSession.send_audio.
  unfold_monad. cbn -[AudioStream.read_chunk].
  unfold state_of in Hst.
  destruct (AudioStream.read_chunk env (audio s) w) as [[[chunk|e] a1] w1];
    cbn in Hst; subst a1; cbn.
  - case_stop_requests; cbn; destruct (nonempty chunk); cbn;
      try (destruct (GeminiSession.session (gemini s)
                     && GeminiSession.running (gemini s)); cbn);
      try (destruct (send_realtime_input env (S (tick w1))); cbn);
      case_stop_requests; cbn; repeat split; auto; lia.
  - case_stop_requests; cbn; repeat split; auto; lia.
Qed.

Lemma while_running_frame
    (iteration : M t unit) (keep : t -> t -> Prop) (count : t -> Z) :
  total iteration ->
  (forall a, keep a a) ->
  (forall a b c, keep a b -> keep b c -> keep a c) ->
  (forall s w, keep s (state_of (iteration s w)) /\
               count s <= count (state_of (iteration s w)) <= count s + 1) ->
  forall fuel s w,
    keep s (state_of (while_running iteration fuel s w)) /\
    count s <= count (state_of (while_running iteration fuel s w))
            <= count s + Z.of_nat fuel.
Proof.
  intros Ht Hrefl Htrans Hit fuel. induction fuel as [|n IH]; intros s w.
  - assert (E : state_of (while_running iteration 0 s w) = s).
    { cbn. unfold bind, gets, ret, state_of. destruct (running s); reflexivity. }
    rewrite E. split; [apply Hrefl | lia].
  - destruct (running s) eqn:R.
    + rewrite while_running_step by exact R.
      destruct (Ht s w) as (s1 & w1 & E). unfold bind. rewrite E.
      destruct (Hit s w) as [Hk Hc]. rewrite E in Hk, Hc.
      unfold state_of in Hk, Hc; cbn [fst snd] in Hk, Hc.
      destruct (IH s1 w1) as [Hk1 Hc1].
      split; [exact (Htrans _ _ _ Hk Hk1) | lia].
    + rewrite while_running_stopped by exact R.
      unfold state_of; cbn [fst snd]. split; [apply Hrefl | lia].
Qed.

(** X17. Each producer writes its own counter only.  However long the
    screen loop runs, it leaves the audio counter, the logger, the stream
    object and the link as they were, and raises [frames_sent] by at most
    one per iteration; the audio loop leaves [frames_sent], the logger,
    the stream object and the link as they were and raises
    [audio_chunks_sent] by at most one per iteration.  No counter ever
    decreases. *)
Theorem producers_keep_to_their_counter (fuel : nat) (s : t) (w : World) :
  let s1 := state_of (_screen_loop env fuel s w) in
  let s2 := state_of (_audio_loop env fuel s w) in
  (logger s1 = logger s /\ audio s1 = audio s /\ gemini s1 = gemini s /\
   audio_chunks_sent s1 = audio_chunks_sent s /\
   frames_sent s <= frames_sent s1 <= frames_sent s + Z.of_nat fuel) /\
  (logger s2 = logger s /\ audio s2 = audio s /\ gemini s2 = gemini s /\
   frames_sent s2 = frames_sent s /\
   audio_chunks_sent s <= audio_chunks_sent s2
                       <= audio_chunks_sent s + Z.of_nat fuel).
Proof.
  cbn zeta. unfold _screen_loop, _audio_loop. split.
  - destruct (while_running_frame (screen_iteration env)
                (fun a b => logger b = logger a /\ audio b = audio a /\
                            gemini b = gemini a /\
                            audio_chunks_sent b = audio_chunks_sent a)
                frames_sent (screen_iteration_total env)) with (fuel := fuel) (s := s) (w := w)
      as [(H1 & H2 & H3 & H4) H5].
    + intros a. repeat split; reflexivity.
    + intros a b c (A1 & A2 & A3 & A4) (B1 & B2 & B3 & B4).
      repeat split; congruence.
    + intros s0 w0. destruct (screen_iteration_frame s0 w0)
        as (F1 & F2 & F3 & F4 & F5 & _).
      split; [repeat split; assumption | exact F5].
    + repeat split; try assumption; lia.
  - destruct (while_running_frame (audio_iteration env)
                (fun a b => logger b = logger a /\ audio b = audio a /\
                            gemini b = gemini a /\
                            frames_sent b = frames_sent a)
                audio_chunks_sent (audio_iteration_total env)) with (fuel := fuel) (s := s) (w := w)
      as [(H1 & H2 & H3 & H4) H5].
    + intros a. repeat split; reflexivity.
    + intros a b c (A1 & A2 & A3 & A4) (B1 & B2 & B3 & B4).
      repeat split; congruence.
    + intros s0 w0. destruct (audio_iteration_frame s0 w0)
        as (F1 & F2 & F3 & F4 & F5 & _).
      split; [repeat split; assumption | exact F5].
    + repeat split; try assumption; lia.
Qed.

Lemma run_setup_eq (s : t) (w : World) :
  run_setup env s w =
    match aenter env (tick w) with
    | Raise e =>
        (Raise e, set_gemini (GeminiSession.set_session_ctx true (gemini s)) s,
         after_event EvAenter w)
    | Ok _ =>
        match AudioStream.start env (audio s) (after_event EvAenter w) with
        | (Raise e, a1, w2) =>
            (Raise e, set_audio a1 (set_gemini (GeminiSession.mk true true true) s), w2)
        | (Ok _, a1, w2) =>
            (Ok tt,
             set_running true
               (set_audio a1 (set_gemini (GeminiSession.mk true true true) s)),
             w2)
        end
    end.
Proof.
  unfold run_setup, on_gemini, on_audio.
  unfold bind at 1. unfold zoom at 1. rewrite connect_eq.
  destruct (aenter env (tick w)) as [[]|e]; [|reflexivity].
  unfold bind, zoom, modify. cbn [audio set_gemini].
  destruct (AudioStream.start env (audio s) (after_event EvAenter w))
    as [[[[]|e0] a1] w2]; reflexivity.
Qed.

(** X18. [run] sets up in the order connect, start the microphone, raise
    the running flag, and an error of a step ends it there: when the
    link cannot be connected the microphone is not touched; when the
    microphone cannot be started the link is left connected and running;
    in both cases the running flag is not raised.  When both steps
    return, the flag is true, the link is connected and the microphone is
    recording. *)
Theorem run_setup_stops_at_first_failure (s : t) (w : World) :
  let w1 := after_event EvAenter w in
  let started := AudioStream.start env (audio s) w1 in
  (forall e, aenter env (tick w) = Raise e ->
     run_setup env s w
       = (Raise e, set_gemini (GeminiSession.set_session_ctx true (gemini s)) s, w1)) /\
  (aenter env (tick w) = Ok tt ->
   (forall e, result_of started = Raise e ->
      result_of (run_setup env s w) = Raise e /\
      gemini (state_of (run_setup env s w)) = GeminiSession.mk true true true /\
      running (state_of (run_setup env s w)) = running s) /\
   (result_of started = Ok tt ->
      result_of (run_setup env s w) = Ok tt /\
      gemini (state_of (run_setup env s w)) = GeminiSession.mk true true true /\
      running (state_of (run_setup env s w)) = true /\
      AudioStream.stream (audio (state_of (run_setup env s w))) = true /\
      AudioStream.running (audio (state_of (run_setup env s w))) = true)).
Proof.
  cbn zeta. rewrite run_setup_eq. split.
  - intros e ->. reflexivity.
  - intros ->.
    pose proof (start_ok_running env (audio s) (after_event EvAenter w)) as Hrun.
    destruct (AudioStream.start env (audio s) (after_event EvAenter w))
      as [[[[]|e0] a1] w2]; unfold result_of, state_of in *; cbn [fst snd] in *.
    + split; [discriminate|]. intros _. destruct (Hrun eq_refl) as [Hs Hr].
      repeat split; assumption.
    + split; [|discriminate]. intros e He. injection He as <-.
      repeat split.
Qed.

(** X19. [shutdown] never writes the counters and never resets the stream
    or session handles, and however it ends, by returning or by raising
    at any step, the running flags of the orchestrator and of the
    microphone are false afterwards. *)
Theorem shutdown_keeps_counters_clears_flags (s : t) (w : World) :
  let s' := state_of (shutdown env s w) in
  running s' = false /\
  AudioStream.running (audio s') = false /\
  frames_sent s' = frames_sent s /\
  audio_chunks_sent s' = audio_chunks_sent s /\
  AudioStream.stream (audio s') = AudioStream.stream (audio s) /\
  AudioStream.native_rate (audio s') = AudioStream.native_rate (audio s) /\
  GeminiSession.session (gemini s') = GeminiSession.session (gemini s) /\
  FeedbackLogger.response_count (logger s')
    = FeedbackLogger.response_count (logger s).
Proof.
  cbn zeta. rewrite shutdown_eq. cbn zeta.
  rewrite (stop_triple env (audio s) w).
  destruct (result_of (AudioStream.stop env (audio s) w)) as [[]|e].
  - destruct (disconnect_spec env (gemini s)
                (world_of (AudioStream.stop env (audio s) w))) as [w2 E].
    rewrite E.
    destruct (FeedbackLogger.file_closed (logger s)) eqn:Hc.
    + rewrite (log_stats_closed env _ _ _ _ Hc). cbn. repeat split.
    + rewrite (log_stats_open env _ _ _ _ Hc). cbn. repeat split.
  - cbn. repeat split.
Qed.

End Counters.

(** ** The orchestrator: responses and the log *)

Section ResponsesAndLog.
Variable env : Env.
Import WorkshopAttendee.

Lemma listener_turn
    (fuel : nat) (s : t) (w : World) (response : Wire.Response) (text : string) :
  GeminiSession.session (gemini s) = true ->
  receive env (tick w) = Ok (Some response) ->
  GeminiSession.extract_text response = Some text -> text <> "" ->
  listen_for_responses env (S fuel) s w =
    match FeedbackLogger.log_response env text (logger s) (after_event EvReceive w) with
    | (Raise e, l1, w1) =>
        (Ok Finished, set_logger l1 s,
         after_report (GeminiSession.running (gemini s)) e w1)
    | (Ok _, l1, w1) =>
        match GeminiSession.receive_loop env t
                (fun x => on_logger (FeedbackLogger.log_response env x))
                fuel (set_logger l1 s) w1 with
        | (Ok st, s2, w2) => (Ok st, s2, w2)
        | (Raise e, s2, w2) =>
            (Ok Finished, s2, after_report (GeminiSession.running (gemini s2)) e w2)
        end
    end.
Proof.
  intros Hs Hr Hx Hne. unfold listen_for_responses.
  rewrite listen_eq, Hs, receive_loop_step, Hr.
  unfold GeminiSession.handle_response. rewrite Hx.
  assert (E : truthy (Some text) = true).
  { cbn. destruct (String.eqb_spec text ""); [contradiction | reflexivity]. }
  rewrite E. unfold when, bind at 1, on_logger at 1, zoom at 1.
  destruct (FeedbackLogger.log_response env text (logger s) (after_event EvReceive w))
    as [[[[]|e] l1] w1]; reflexivity.
Qed.

(** X20. A response event reaches the log through the listener: with the
    log open, the non-blank lines of its text are appended, each stamped,
    before the next event is asked for, and the response is counted.
    Once the log is closed (after [shutdown]) the first event with a
    non-blank line ends the listener: [log_response] raises, the listener
    stops without receiving more, and it reports the error only if the
    link is still running; the response has been counted all the same. *)
Theorem responses_reach_the_log
    (fuel : nat) (s : t) (w : World) (response : Wire.Response) (text : string) :
  GeminiSession.session (gemini s) = true ->
  receive env (tick w) = Ok (Some response) ->
  GeminiSession.extract_text response = Some text -> text <> "" ->
  let w1 := after_event EvReceive w in
  let count := FeedbackLogger.response_count (logger s) + 1 in
  (FeedbackLogger.file_closed (logger s) = true -> nonblank_lines text <> [] ->
   listen_for_responses env (S fuel) s w
     = (Ok Finished,
        set_logger (FeedbackLogger.mk (FeedbackLogger.file (logger s)) true count) s,
        after_report (GeminiSession.running (gemini s)) closed_file_error
          (advance w1))) /\
  (FeedbackLogger.file_closed (logger s) = false ->
   let w2 := mkWorld (List.length (nonblank_lines text) + tick w1) (trace w1) in
   receive env (tick w2) = Ok None ->
   listen_for_responses env (S (S fuel)) s w
     = (Ok Finished,
        set_logger
          (FeedbackLogger.mk
             (FeedbackLogger.file (logger s)
              ++ stamped env (tick w1) (nonblank_lines text))
             false count) s,
        after_event EvReceive w2)).
Proof.
  intros Hs Hr Hx Hne. cbn zeta. split.
  - intros Hc Hn. rewrite (listener_turn fuel s w response text Hs Hr Hx Hne).
    rewrite (log_response_closed env text _ _ Hc Hn). reflexivity.
  - intros Hc Hend. rewrite (listener_turn (S fuel) s w response text Hs Hr Hx Hne).
    rewrite (log_response_open env text _ _ Hc).
    rewrite receive_loop_step. cbn [tick] in *. rewrite Hend. reflexivity.
Qed.

End ResponsesAndLog.

(** ** The screen: monitors and regions *)

Section Screen.
Import ScreenCapture.

Lemma getitem_in_range {A} (l : list A) (i : Z) :
  0 <= i < Z.of_nat (List.length l) ->
  getitem l i = nth_error l (Z.to_nat i).
Proof.
  intros H. unfold getitem. cbn zeta.
  destruct (Z.leb_spec 0 i); [reflexivity | lia].
Qed.

Lemma getitem_none {A} (l : list A) (i : Z) :
  Z.of_nat (List.length l) <= i \/ i < - Z.of_nat (List.length l) ->
  getitem l i = None.
Proof.
  intros H. unfold getitem. cbn zeta.
  destruct (Z.leb_spec 0 i).
  - apply nth_error_None. lia.
  - destruct (Z.leb_spec (- Z.of_nat (List.length l)) i); [lia | reflexivity].
Qed.

Lemma enumerate_from_in (i : Z) (regions : list Region) :
  forall k m,
    In (Monitor k m) (enumerate_from i regions) <->
    i < k /\ nth_error regions (Z.to_nat (k - i - 1)) = Some m.
Proof.
  revert i. induction regions as [|r rest IH]; intros i k m; cbn.
  - split; [contradiction|]. intros [_ H]. destruct (Z.to_nat (k - i - 1)); discriminate.
  - rewrite IH. split.
    + intros [H | [Hlt H]].
      * injection H as <- <-. split; [lia|].
        replace (i + 1 - i - 1) with 0 by lia. reflexivity.
      * split; [lia|].
        replace (Z.to_nat (k - i - 1)) with (S (Z.to_nat (k - (i + 1) - 1))) by lia.
        exact H.
    + intros [Hlt H]. destruct (Z.eq_dec k (i + 1)) as [-> | Hne].
      * left. replace (i + 1 - i - 1) with 0 in H by lia. cbn in H.
        injection H as <-. reflexivity.
      * right. split; [lia|].
        replace (Z.to_nat (k - i - 1)) with (S (Z.to_nat (k - (i + 1) - 1))) in H by lia.
        exact H.
Qed.

Lemma nth_error_some_lt {A} (l : list A) (n : nat) (x : A) :
  nth_error l n = Some x -> (n < List.length l)%nat.
Proof. intros H. apply nth_error_Some. rewrite H. discriminate. Qed.

(** X21. The index [list_monitors] shows for a monitor is the index
    [capture_frame] understands: the listing starts with the full desktop
    at index 0, has one entry per detected monitor, and a capture with
    the monitor index of any listed monitor grabs exactly the box of
    that monitor; index 0 grabs the full desktop. *)
Theorem listed_index_selects_listed_region
    (regions : list Region) (w : World) (h : Z) :
  exists entries,
    list_monitors (Some regions) w = (Ok entries, Some regions, w) /\
    List.length entries = S (List.length regions) /\
    hd_error entries = Some (FullDesktop 0) /\
    grab_bbox (mk 0 h) (Some regions) = None /\
    (forall k m, In (Monitor k m) entries ->
       grab_bbox (mk k h) (Some regions) = Some (bbox_of m)) /\
    (forall k, In (FullDesktop k) entries -> k = 0).
Proof.
  exists (FullDesktop 0 :: enumerate_from 0 regions).
  split; [reflexivity|]. split.
  { cbn. f_equal. generalize 0. induction regions as [|r rest IH]; intros i;
      cbn; [reflexivity | rewrite IH; reflexivity]. }
  split; [reflexivity|]. split.
  { destruct regions; reflexivity. }
  split.
  - intros k m [H | H]; [discriminate H|].
    apply enumerate_from_in in H. destruct H as [Hk Hn].
    replace (k - 0 - 1) with (k - 1) in Hn by lia.
    pose proof (nth_error_some_lt _ _ _ Hn) as Hlt.
    unfold grab_bbox. cbn [monitor_index].
    destruct regions as [|r rest]; [cbn in Hlt; lia|].
    assert (E : (k =? 0) = false) by (apply Z.eqb_neq; lia). rewrite E.
    rewrite getitem_in_range by lia. rewrite Hn. reflexivity.
  - intros k [H | H]; [injection H as <-; reflexivity|].
    exfalso. revert H. generalize 0.
    induction regions as [|r rest IH]; intros i; cbn; [tauto|].
    intros [H | H]; [discriminate H | exact (IH _ H)].
Qed.

(** X22. Which region a monitor index selects.  Index 0, or any index
    when no monitor was detected, is the full desktop.  With [n] detected
    monitors, an index from 1 to [n] selects that monitor; an index above
    [n], or at most [-n], falls back to the full desktop; and an index
    from [1 - n] to -1 does not fall back: Python's negative indexing
    selects the monitor at position [n + index - 1]. *)
Theorem monitor_index_selection (self : t) (regions : list Region) :
  let n := Z.of_nat (List.length regions) in
  let k := monitor_index self in
  grab_bbox self None = None /\
  grab_bbox self (Some []) = None /\
  (k = 0 -> grab_bbox self (Some regions) = None) /\
  (n < k \/ k <= - n -> grab_bbox self (Some regions) = None) /\
  (1 <= k <= n ->
   exists m, nth_error regions (Z.to_nat (k - 1)) = Some m /\
             grab_bbox self (Some regions) = Some (bbox_of m)) /\
  (1 - n <= k <= -1 ->
   exists m, nth_error regions (Z.to_nat (n + k - 1)) = Some m /\
             grab_bbox self (Some regions) = Some (bbox_of m)).
Proof.
  cbn zeta. split; [reflexivity|]. split; [reflexivity|].
  split.
  { intros H. unfold grab_bbox. rewrite H. destruct regions; reflexivity. }
  split.
  { intros H. unfold grab_bbox. destruct regions as [|r rest] eqn:E; [reflexivity|].
    rewrite <- E in *. destruct (monitor_index self =? 0); [reflexivity|].
    rewrite getitem_none by lia. reflexivity. }
  split.
  - intros H.
    destruct (nth_error regions (Z.to_nat (monitor_index self - 1))) as [m|] eqn:E.
    2:{ apply nth_error_None in E. lia. }
    exists m. split; [reflexivity|]. unfold grab_bbox.
    destruct regions as [|r rest] eqn:Er; [cbn in H; lia|]. rewrite <- Er in *.
    assert (E0 : (monitor_index self =? 0) = false) by (apply Z.eqb_neq; lia).
    rewrite E0, getitem_in_range by lia. rewrite E. reflexivity.
  - intros H.
    destruct (nth_error regions
                (Z.to_nat (Z.of_nat (List.length regions) + monitor_index self - 1)))
      as [m|] eqn:E.
    2:{ apply nth_error_None in E. lia. }
    exists m. split; [reflexivity|]. unfold grab_bbox.
    destruct regions as [|r rest] eqn:Er; [cbn in H; lia|]. rewrite <- Er in *.
    assert (E0 : (monitor_index self =? 0) = false) by (apply Z.eqb_neq; lia).
    rewrite E0. unfold getitem. cbn zeta.
    destruct (Z.leb_spec 0 (monitor_index self - 1)); [lia|].
    destruct (Z.leb_spec (- Z.of_nat (List.length regions)) (monitor_index self - 1));
      [|lia].
    replace (Z.of_nat (List.length regions) + (monitor_index self - 1))
      with (Z.of_nat (List.length regions) + monitor_index self - 1) by lia.
    rewrite E. reflexivity.
Qed.

Section Detection.
Variable mss_monitors : nat -> result (list MssMonitor).

Lemma detect_eq (c : cache) (w : World) :
  _detect_monitors mss_monitors c w =
    (Ok tt,
     Some (match mss_monitors (tick w) with
           | Ok ms => map region_of (tl ms)
           | Raise _ => []
           end),
     advance w).
Proof.
  unfold _detect_monitors, consult, advance. unfold_monad.
  destruct (mss_monitors (tick w)); reflexivity.
Qed.

(** X23. Monitor detection never fails the constructor and runs once.
    The first [ScreenCapture] constructed fills the shared monitor list
    with one region per monitor [mss] reports after the combined one, or
    with the empty list when [mss] fails; each region has
    [right - left = width] and [bottom - top = height].  Every later
    construction leaves the list as it is and does not consult [mss]. *)
Theorem monitors_detected_once (c : cache) (w : World) (i h i2 h2 : Z) :
  let first := init mss_monitors i h c w in
  result_of first = Ok (mk i h) /\
  (c = None ->
   state_of first =
     Some (match mss_monitors (tick w) with
           | Ok ms => map region_of (tl ms)
           | Raise _ => []
           end) /\
   world_of first = advance w /\
   forall regions m, state_of first = Some regions -> In m regions ->
     right m - left m = width m /\ bottom m - top m = height m) /\
  (forall regions, c = Some regions -> state_of first = c /\ world_of first = w) /\
  init mss_monitors i2 h2 (state_of first) (world_of first)
    = (Ok (mk i2 h2), state_of first, world_of first).
Proof.
  cbn zeta.
  assert (E : init mss_monitors i h c w =
              match c with
              | None =>
                  (Ok (mk i h),
                   Some (match mss_monitors (tick w) with
                         | Ok ms => map region_of (tl ms)
                         | Raise _ => []
                         end),
                   advance w)
              | Some _ => (Ok (mk i h), c, w)
              end).
  { unfold init. unfold bind at 1, gets at 1. destruct c as [regions|].
    - reflexivity.
    - unfold bind. rewrite detect_eq. reflexivity. }
  rewrite E. destruct c as [regions|].
  - split; [reflexivity|]. split; [discriminate|].
    split; [intros r _; split; reflexivity | reflexivity].
  - split; [reflexivity|]. split; [|split; [discriminate | reflexivity]].
    intros _. split; [reflexivity|]. split; [reflexivity|].
    intros regions m H Hin. cbn in H. injection H as <-.
    destruct (mss_monitors (tick w)) as [ms|e]; [|contradiction].
    apply in_map_iff in Hin. destruct Hin as (x & <- & _). cbn. lia.
Qed.

End Detection.

End Screen.

(** ** The device listing *)

Section Devices.
Import AudioDevices.

Lemma list_devices_from_in (infos : list DeviceInfo) :
  forall (i : Z) (e : Entry),
    In e (list_devices_from i infos) <->
    exists info,
      i <= index e /\
      nth_error infos (Z.to_nat (index e - i)) = Some info /\
      0 < maxInputChannels info /\
      e = device_entry (index e) info.
Proof.
  induction infos as [|info0 rest IH]; intros i e; cbn [list_devices_from].
  - split; [contradiction|]. intros (info & _ & H & _).
    destruct (Z.to_nat (index e - i)); discriminate.
  - assert (tail : In e (list_devices_from (i + 1) rest) <->
              exists info, i + 1 <= index e /\
                nth_error (info0 :: rest) (Z.to_nat (index e - i)) = Some info /\
                0 < maxInputChannels info /\ e = device_entry (index e) info).
    { rewrite IH. split; intros (info & H1 & H2 & H3 & H4); exists info.
      - split; [exact H1|]. split; [|split; assumption].
        replace (Z.to_nat (index e - i)) with (S (Z.to_nat (index e - (i + 1)))) by lia.
        exact H2.
      - split; [exact H1|]. split; [|split; assumption].
        replace (Z.to_nat (index e - i)) with (S (Z.to_nat (index e - (i + 1))))
          in H2 by lia.
        exact H2. }
    destruct (Z.ltb_spec 0 (maxInputChannels info0)) as [Hin | Hout].
    + cbn [In]. rewrite tail. split.
      * intros [<- | (info & H1 & H2 & H3 & H4)].
        -- exists info0. cbn [index]. split; [lia|].
           replace (i - i) with 0 by lia. repeat split. exact Hin.
        -- exists info. split; [lia|]. repeat split; assumption.
      * intros (info & H1 & H2 & H3 & H4).
        destruct (Z.eq_dec (index e) i) as [Heq | Hne].
        -- left. rewrite Heq in H2. replace (i - i) with 0 in H2 by lia.
           cbn in H2. injection H2 as <-. rewrite H4, Heq. reflexivity.
        -- right. exists info. split; [lia|]. repeat split; assumption.
    + rewrite tail. split.
      * intros (info & H1 & H2 & H3 & H4). exists info.
        split; [lia|]. repeat split; assumption.
      * intros (info & H1 & H2 & H3 & H4).
        destruct (Z.eq_dec (index e) i) as [Heq | Hne].
        -- rewrite Heq in H2. replace (i - i) with 0 in H2 by lia.
           cbn in H2. injection H2 as <-. lia.
        -- exists info. split; [lia|]. repeat split; assumption.
Qed.

Lemma list_devices_from_sorted (infos : list DeviceInfo) :
  forall i, StronglySorted Z.lt (map index (list_devices_from i infos)).
Proof.
  induction infos as [|info0 rest IH]; intros i; cbn [list_devices_from].
  - constructor.
  - destruct (0 <? maxInputChannels info0); [|apply IH].
    cbn [map index]. constructor; [apply IH|].
    apply Forall_forall. intros k Hk. apply in_map_iff in Hk.
    destruct Hk as (e & <- & He). apply list_devices_from_in in He.
    destruct He as (_ & H & _). lia.
Qed.

(** X24. [list_devices] lists exactly the devices that have input
    channels, under their own device index: an entry is listed if and
    only if the device table has, at the entry's index, a device with at
    least one input channel, whose name, channel count and truncated
    default rate the entry carries.  The entries come in increasing
    index order, so no device is listed twice. *)
Theorem list_devices_lists_input_devices (infos : list DeviceInfo) :
  (forall e, In e (list_devices infos) <->
     exists info,
       0 <= index e /\
       nth_error infos (Z.to_nat (index e)) = Some info /\
       0 < maxInputChannels info /\
       e = device_entry (index e) info) /\
  StronglySorted Z.lt (map index (list_devices infos)).
Proof.
  split; [|apply list_devices_from_sorted].
  intros e. unfold list_devices. rewrite list_devices_from_in.
  split; intros (info & H1 & H2 & H3 & H4); exists info;
    (split; [exact H1|]); (split; [|split; assumption]).
  - replace (index e) with (index e - 0) at 1 by lia. exact H2.
  - replace (index e - 0) with (index e) by lia. exact H2.
Qed.

End Devices.

(** ** The further properties on concrete inputs *)

Lemma log_response_appends_stamped_lines_witness :
  FeedbackLogger.log_response env_ok two_line_text (FeedbackLogger.mk "" false 0) world0
  = (Ok tt,
     FeedbackLogger.mk
       (FeedbackLogger.log_line "12:00:00" "OBSERVATION: slide 3" ++
        FeedbackLogger.log_line "12:00:00" " QUESTION: why?")%string
       false 1,
     mkWorld 2 []) /\
  FeedbackLogger.log_response env_ok nbsp_text (FeedbackLogger.mk "" false 0) world0
  = (Ok tt,
     FeedbackLogger.mk (FeedbackLogger.log_line "12:00:00" "hello") false 1,
     mkWorld 1 []) /\
  nonblank_lines (nbsp ++ nbsp) = [].
Proof.
  split; [|split; [|reflexivity]].
  - exact (log_response_appends_stamped_lines env_ok two_line_text
             (FeedbackLogger.mk "" false 0) world0 eq_refl).
  - exact (log_response_appends_stamped_lines env_ok nbsp_text
             (FeedbackLogger.mk "" false 0) world0 eq_refl).
Defined.

Lemma blank_response_counted_not_written_witness :
  whitespace_only blank_text /\
  FeedbackLogger.log_response env_ok blank_text (FeedbackLogger.mk "" true 4) world0
  = (Ok tt, FeedbackLogger.mk "" true 5, world0).
Proof.
  assert (H : whitespace_only blank_text) by (repeat constructor).
  split; [exact H|].
  exact (blank_response_counted_not_written env_ok blank_text
           (FeedbackLogger.mk "" true 4) world0 H).
Defined.

Lemma response_on_closed_log_raises_witness :
  nonblank_lines two_line_text <> [] /\
  FeedbackLogger.log_response env_ok two_line_text (FeedbackLogger.mk "" true 4) world0
  = (Raise closed_file_error, FeedbackLogger.mk "" true 5, advance world0).
Proof.
  assert (H : nonblank_lines two_line_text <> []) by (vm_compute; discriminate).
  split; [exact H|].
  exact (response_on_closed_log_raises env_ok two_line_text
           (FeedbackLogger.mk "" true 4) world0 eq_refl H).
Defined.

Lemma log_is_append_only_witness :
  FeedbackLogger.file
    (state_of (FeedbackLogger.log_stats env_ok 10 (1 # 2)
                 (FeedbackLogger.mk "kept" true 0) world0))
  = "kept".
Proof.
  destruct (log_is_append_only env_ok (FeedbackLogger.mk "kept" true 0) world0
              "" "" 10 (1 # 2)) as (_ & _ & _ & _ & H).
  exact (H eq_refl).
Defined.

Lemma samples_bytes_round_trip_witness :
  AudioStream.frombuffer block0 = Some [1; 2] /\
  AudioStream.tobytes [1; 2] = block0 /\
  AudioStream.frombuffer (AudioStream.tobytes [-1; 32767]) = Some [-1; 32767] /\
  AudioStream.frombuffer [Byte.x01; Byte.x00; Byte.x02] = None.
Proof.
  split; [reflexivity|].
  split.
  { apply (proj1 (samples_bytes_round_trip block0 [1; 2])). reflexivity. }
  split.
  { apply (proj1 (proj2 (samples_bytes_round_trip [] [-1; 32767]))).
    repeat constructor; unfold int16; lia. }
  apply (proj2 (proj2 (samples_bytes_round_trip [Byte.x01; Byte.x00; Byte.x02] []))).
  reflexivity.
Defined.

Lemma converted_block_is_well_formed_witness :
  exists out,
    AudioStream.to_target_rate env_ok block0 a8 world0 = (Ok out, a8, world0) /\
    List.length out = 8%nat.
Proof.
  assert (Hne : 8000 <> AudioStream.TARGET_RATE) by (vm_compute; discriminate).
  assert (H0 : 8000 <> 0) by lia.
  destruct (proj1 (converted_block_is_well_formed env_ok a8 world0 block0 8000
                     eq_refl Hne H0)
              [1; 2] (repeat (inject_Z 1) 4) eq_refl eq_refl)
    as (out & H1 & _ & _ & H2).
  exists out. split; [exact H1 | exact H2].
Defined.

Lemma start_opens_at_recorded_rate_witness :
  result_of (AudioStream.start env_48k_busy (AudioStream.init None) world0) = Ok tt /\
  AudioStream.running
    (state_of (AudioStream.start env_48k_busy (AudioStream.init None) world0)) = true.
Proof.
  split; [reflexivity|].
  destruct (start_opens_at_recorded_rate env_48k_busy (AudioStream.init None) world0)
    as (_ & H & _).
  destruct (H eq_refl) as (_ & Hr & _). exact Hr.
Defined.

Lemma start_default_device_falls_back_witness :
  AudioStream.start env_48k_busy (AudioStream.init None) world0
  = (Ok tt, AudioStream.mk None true true (Some 44100),
     mkWorld 2 [EvOpen 48000; EvOpen 44100]).
Proof.
  destruct (start_default_device_falls_back env_48k_busy (AudioStream.init None)
              world0 eq_refl) as (_ & _ & H).
  destruct (H busy_error eq_refl eq_refl) as (H1 & _).
  exact (H1 eq_refl).
Defined.

Lemma start_explicit_device_no_fallback_witness :
  AudioStream.start env_48k_busy (AudioStream.init (Some 5)) world0
  = (Raise busy_error, AudioStream.mk (Some 5) false false (Some 48000),
     mkWorld 2 [EvDeviceInfo 5; EvOpen 48000]).
Proof.
  destruct (start_explicit_device_no_fallback env_48k_busy
              (AudioStream.init (Some 5)) world0 5 eq_refl) as (_ & H & _).
  exact (H 48000 busy_error eq_refl eq_refl).
Defined.

Lemma stop_releases_in_order_witness :
  AudioStream.stop env_stop_fails a16 world0
  = (Raise stream_error, AudioStream.mk None true false (Some 16000),
     mkWorld 1 [EvStopStream]).
Proof.
  destruct (stop_releases_in_order env_stop_fails a16 world0) as (_ & _ & H).
  destruct (H eq_refl) as (H1 & _).
  exact (H1 stream_error eq_refl).
Defined.

Lemma read_after_start_reads_device_witness :
  result_of (AudioStream.start env_16k (AudioStream.init (Some 5)) world0) = Ok tt /\
  trace (world_of
    (AudioStream.read_chunk env_16k
       (state_of (AudioStream.start env_16k (AudioStream.init (Some 5)) world0))
       (world_of (AudioStream.start env_16k (AudioStream.init (Some 5)) world0))))
  = [EvDeviceInfo 5; EvOpen 16000; EvStreamRead 1024].
Proof.
  split; [reflexivity|].
  destruct (read_after_start_reads_device env_16k (AudioStream.init (Some 5))
              world0 eq_refl) as (_ & H & _).
  rewrite H. reflexivity.
Defined.

Lemma connected_link_forwards_tagged_media_witness :
  GeminiSession.send_audio env_ok block0 (GeminiSession.mk true true true)
    (mkWorld 1 [EvAenter])
  = (Ok tt, GeminiSession.mk true true true,
     mkWorld 2 [EvAenter; EvSendBytes "audio/pcm" block0]).
Proof.
  destruct (connected_link_forwards_tagged_media env_ok GeminiSession.init world0
              "JPEG" block0 eq_refl) as (_ & _ & H).
  exact H.
Defined.

Lemma failed_connect_leaves_link_unconnected_witness :
  GeminiSession.connect env_no_auth GeminiSession.init world0
  = (Raise auth_error, GeminiSession.mk false true false, mkWorld 1 [EvAenter]) /\
  GeminiSession.disconnect env_no_auth (GeminiSession.mk false true false)
    (mkWorld 1 [EvAenter])
  = (Ok tt, GeminiSession.mk false true false, mkWorld 2 [EvAenter; EvAexit]).
Proof.
  destruct (failed_connect_leaves_link_unconnected env_no_auth GeminiSession.init
              world0 auth_error "JPEG" eq_refl) as (_ & H1 & _ & H2).
  split; [exact H1 | exact H2].
Defined.

Lemma listener_never_raises_witness :
  WorkshopAttendee.listen_for_responses env_ok 3 s_fresh world0
  = (Ok Finished, s_fresh, world0).
Proof.
  destruct (listener_never_raises env_ok WorkshopAttendee.t WorkshopAttendee.gemini
              (fun x => WorkshopAttendee.on_logger (FeedbackLogger.log_response env_ok x))
              3 s_fresh world0) as (_ & _ & _ & H).
  exact (H eq_refl).
Defined.

Lemma screen_iteration_effect_witness :
  WorkshopAttendee.frames_sent
    (state_of (WorkshopAttendee.screen_iteration env_ok s_live world0)) = 11 /\
  trace (world_of (WorkshopAttendee.screen_iteration env_ok s_live world0))
  = [EvCaptureFrame; EvSendText "image/jpeg" "JPEG"; EvSleep (4 # 10)] /\
  WorkshopAttendee.frames_sent
    (state_of (WorkshopAttendee.screen_iteration env_capture_fails s_live world0)) = 10.
Proof.
  destruct (screen_iteration_effect env_ok s_live world0) as (_ & H).
  destruct (H "JPEG" eq_refl) as (_ & H1 & _).
  destruct (H1 eq_refl eq_refl) as (Hf & Ht).
  destruct (screen_iteration_effect env_capture_fails s_live world0) as (H2 & _).
  destruct (H2 grab_error eq_refl) as (Hf2 & _).
  split; [exact Hf|]. split; [exact Ht | exact Hf2].
Defined.


Lemma run_setup_stops_at_first_failure_witness :
  WorkshopAttendee.run_setup env_no_auth s_fresh world0
  = (Raise auth_error,
     WorkshopAttendee.set_gemini (GeminiSession.mk false true false) s_fresh,
     mkWorld 1 [EvAenter]) /\
  WorkshopAttendee.running
    (state_of (WorkshopAttendee.run_setup env_ok s_fresh world0)) = true.
Proof.
  destruct (run_setup_stops_at_first_failure env_no_auth s_fresh world0) as (H1 & _).
  destruct (run_setup_stops_at_first_failure env_ok s_fresh world0) as (_ & H2).
  destruct (H2 eq_refl) as (_ & H3).
  destruct (H3 eq_refl) as (_ & _ & Hr & _).
  split; [exact (H1 auth_error eq_refl) | exact Hr].
Defined.

Lemma responses_reach_the_log_witness :
  FeedbackLogger.file
    (WorkshopAttendee.logger
       (state_of (WorkshopAttendee.listen_for_responses env_one_response 2 s_live world0)))
  = (FeedbackLogger.log_line "12:00:00" "Session started: demo" ++
     FeedbackLogger.log_line "12:00:00" "I noticed slide three.")%string /\
  result_of
    (WorkshopAttendee.listen_for_responses env_one_response 1
       (state_of (WorkshopAttendee.shutdown env_one_response s_live (mkWorld 7 [])))
       world0)
  = Ok Finished.
Proof.
  assert (Hne : "I noticed slide three." <> "") by discriminate.
  assert (Hn : nonblank_lines "I noticed slide three." <> [])
    by (vm_compute; discriminate).
  destruct (responses_reach_the_log env_one_response 0 s_live world0
              turn_and_transcript "I noticed slide three."
              eq_refl eq_refl eq_refl Hne) as (_ & Hopen).
  destruct (responses_reach_the_log env_one_response 0
              (state_of (WorkshopAttendee.shutdown env_one_response s_live (mkWorld 7 [])))
              world0 turn_and_transcript "I noticed slide three."
              eq_refl eq_refl eq_refl Hne) as (Hclosed & _).
  split.
  - rewrite (Hopen eq_refl eq_refl). reflexivity.
  - rewrite (Hclosed eq_refl Hn). reflexivity.
Defined.

Lemma listed_index_selects_listed_region_witness :
  ScreenCapture.grab_bbox (ScreenCapture.mk 2 720) (Some demo_regions)
  = Some (1920, 0, 3840, 1080).
Proof.
  destruct (listed_index_selects_listed_region demo_regions world0 720)
    as (entries & Hl & _ & _ & _ & H & _).
  injection Hl as <-.
  apply (H 2 (ScreenCapture.mkRegion 1920 0 3840 1080 1920 1080)).
  right. right. left. reflexivity.
Defined.

Lemma monitor_index_selection_witness :
  ScreenCapture.grab_bbox (ScreenCapture.mk (-1) 720) (Some demo_regions)
    = Some (0, 0, 1920, 1080) /\
  ScreenCapture.grab_bbox (ScreenCapture.mk 3 720) (Some demo_regions) = None.
Proof.
  destruct (monitor_index_selection (ScreenCapture.mk (-1) 720) demo_regions)
    as (_ & _ & _ & _ & _ & H).
  destruct (monitor_index_selection (ScreenCapture.mk 3 720) demo_regions)
    as (_ & _ & _ & H3 & _).
  split.
  - assert (Hr : 1 - Z.of_nat (List.length demo_regions) <= -1 <= -1)
      by (cbn; lia).
    destruct (H Hr) as (m & Hm & Hg). cbn in Hm. injection Hm as <-. exact Hg.
  - apply H3. left. cbn. lia.
Defined.

Lemma monitors_detected_once_witness :
  ScreenCapture.init (fun _ => Ok demo_monitors) 1 720 None world0
  = (Ok (ScreenCapture.mk 1 720), Some demo_regions, advance world0) /\
  ScreenCapture.init (fun _ => Raise grab_error) 2 720 (Some demo_regions) world0
  = (Ok (ScreenCapture.mk 2 720), Some demo_regions, world0).
Proof.
  destruct (monitors_detected_once (fun _ => Ok demo_monitors) None world0 1 720 2 720)
    as (Hr & Hnone & _ & _).
  destruct (Hnone eq_refl) as (Hs & Hw & _).
  destruct (monitors_detected_once (fun _ => Raise grab_error) (Some demo_regions)
              world0 2 720 2 720) as (Hr2 & _ & Hsome & _).
  destruct (Hsome demo_regions eq_refl) as (Hs2 & Hw2).
  split.
  - unfold result_of, state_of, world_of in *.
    destruct (ScreenCapture.init (fun _ => Ok demo_monitors) 1 720 None world0)
      as [[r c] w]. cbn [fst snd] in *. subst r c w. reflexivity.
  - unfold result_of, state_of, world_of in *.
    destruct (ScreenCapture.init (fun _ => Raise grab_error) 2 720
                (Some demo_regions) world0) as [[r c] w].
    cbn [fst snd] in *. subst r c w. reflexivity.
Defined.

Lemma list_devices_lists_input_devices_witness :
  In (AudioDevices.mkEntry 2 "Line in" 2 48000) (AudioDevices.list_devices demo_devices) /\
  ~ In (device_entry 0 (AudioDevices.mkInfo "HDMI" 0 (48000 # 1)))
       (AudioDevices.list_devices demo_devices).
Proof.
  destruct (list_devices_lists_input_devices demo_devices) as (H & _).
  split.
  - apply (H (AudioDevices.mkEntry 2 "Line in" 2 48000)).
    exists (AudioDevices.mkInfo "Line in" 2 (96001 # 2)).
    cbn. repeat split; lia.
  - intros Hin. apply H in Hin. destruct Hin as (info & _ & Hn & Hc & _).
    cbn in Hn. injection Hn as <-. cbn in Hc. lia.
Defined.
